(** * go-weather-app: a shallow embedding of [main.go]

    The program is a single HTTP endpoint, [GET /weather?lat=..&lon=..], that
    asks the National Weather Service for the forecast of a coordinate (two
    requests, one after the other) and labels the temperature of the chosen
    forecast period.

    Conventions of the embedding:
    - a Go [string] is a sequence of bytes: [String.string];
    - a Go [int] is an integer [Z]; where the 64-bit range matters (decoding
      a JSON number) the bound is written out;
    - a Go [float64] is an IEEE-754 binary64 datum: [spec_float];
    - [url.Values] and [http.Header] are Go maps from a string to a list of
      strings: [gmap string (list string)];
    - what a function of [main.go] does to the outside (the requests sent
      with [http.DefaultClient.Do], the lines given to [log.Println], the
      clock) is threaded through an explicit state, and a run-time panic is
      an outcome of its own;
    - the functions of Go's library that [main.go] calls are modelled from
      their documentation, each with the name it has in Go. *)

From Stdlib Require Import ZArith String Ascii List Lia Bool.
From Stdlib Require Import Floats.SpecFloat.
From Stdlib Require Import DecimalString DecimalN DecimalPos.
From stdpp Require Import base strings gmap.
Import ListNotations.

Open Scope string_scope.
Open Scope Z_scope.

(** ** Bytes and strings *)

Module Bytes.

Definition code (c : ascii) : Z := Z.of_N (N_of_ascii c).

Definition between (lo hi c : ascii) : bool :=
  (code lo <=? code c) && (code c <=? code hi).

Definition is_digit (c : ascii) : bool := between "0" "9" c.

(** [len(s)] *)
Definition len (s : string) : Z := Z.of_nat (String.length s).

(** [s[:n]], for [0 <= n <= len(s)] (the callers check the bound) *)
Definition prefix (n : nat) (s : string) : string := substring 0 n s.

Fixpoint all_digits (s : string) : bool :=
  match s with
  | EmptyString => true
  | String c r => is_digit c && all_digits r
  end.

Definition digit_char (d : Z) : ascii := ascii_of_N (Z.to_N (48 + d mod 10)).

(** decimal numeral of a natural number, without leading zeros *)
Definition itoa (n : Z) : string := NilZero.string_of_uint (N.to_uint (Z.to_N n)).

End Bytes.

(** ** The classifier ([main.go], lines 131-140) *)

Definition classify (temp : Z) : string :=
  if temp >=? 80 then "hot"
  else if temp <=? 50 then "cold"
  else "moderate".

(** ** float64 *)

Definition float64 : Set := spec_float.

Definition NaN : float64 := S754_nan.
Definition Inf (neg : bool) : float64 := S754_infinity neg.

Definition is_finite (f : float64) : bool :=
  match f with
  | S754_zero _ | S754_finite _ _ _ => true
  | S754_infinity _ | S754_nan => false
  end.

(** *** [fmt.Sprintf("%.4f", f)]

    The exact value of [f] rounded to four decimals, ties to even; the sign
    is the sign bit, so a negative value that rounds to zero keeps its [-].
    An infinity prints as [+Inf] or [-Inf], a NaN as [NaN]. *)

Module Fmt.
Import Bytes.

(** nearest integer to [num / den], ties to even ([0 <= num], [0 < den]) *)
Definition round_half_even (num den : Z) : Z :=
  let q := num / den in
  let r := num mod den in
  if (den <? 2 * r) || ((den =? 2 * r) && Z.odd q) then q + 1 else q.

(** [|m * 2^e|] in units of 10^-4 *)
Definition ten_thousandths (m : positive) (e : Z) : Z :=
  if 0 <=? e then Z.pos m * 2 ^ e * 10000
  else round_half_even (Z.pos m * 10000) (2 ^ (- e)).

Definition fixed4 (neg : bool) (n : Z) : string :=
  (if neg then "-" else "") ++
  itoa (n / 10000) ++ "." ++
  String (digit_char (n / 1000))
    (String (digit_char (n / 100))
      (String (digit_char (n / 10))
        (String (digit_char n) EmptyString))).

Definition Sprintf_4f (f : float64) : string :=
  match f with
  | S754_nan => "NaN"
  | S754_infinity false => "+Inf"
  | S754_infinity true => "-Inf"
  | S754_zero neg => fixed4 neg 0
  | S754_finite neg m e => fixed4 neg (ten_thousandths m e)
  end.

(** A numeral with exactly four decimals: an optional [-], one digit or
    more, a point, four digits. *)
Definition frac4 (s : string) : bool :=
  match s with
  | String a (String b (String c (String d EmptyString))) =>
      is_digit a && is_digit b && is_digit c && is_digit d
  | _ => false
  end.

Fixpoint int_point_frac4 (seen : bool) (s : string) : bool :=
  match s with
  | EmptyString => false
  | String c r =>
      if is_digit c then int_point_frac4 true r
      else if Ascii.eqb c "." then seen && frac4 r
      else false
  end.

Definition four_decimals (s : string) : bool :=
  match s with
  | String c r =>
      if Ascii.eqb c "-" then int_point_frac4 false r else int_point_frac4 false s
  | EmptyString => false
  end.

End Fmt.

(** *** [strconv.ParseFloat(s, 64)]

    The syntax is the one of Go's [readFloat] and [special]: an optional
    sign, then either [inf], [infinity] or (unsigned) [nan] in any case, or a
    decimal mantissa with an optional [e] exponent, or a [0x] mantissa with a
    mandatory [p] exponent; underscores may separate digits. A well-formed
    numeral denotes a rational number, which is rounded to the nearest
    binary64 value, ties to even; one that rounds beyond the largest finite
    value gives an infinity together with [ErrRange]. (Go keeps at most 800
    significant digits of a decimal mantissa; the model keeps them all.) *)

Module Strconv.
Import Bytes.

Inductive NumError : Set := ErrSyntax | ErrRange.

(** [c | ('x' - 'X')] *)
Definition lower (c : ascii) : ascii :=
  ascii_of_N (N.lor (N_of_ascii c) 32).

Fixpoint commonPrefixLenIgnoreCase (s pre : string) : nat :=
  match s, pre with
  | String c s', String p pre' =>
      let c' := if between "A" "Z" c then ascii_of_N (N_of_ascii c + 32) else c in
      if Ascii.eqb c' p then S (commonPrefixLenIgnoreCase s' pre') else O
  | _, _ => O
  end.

Definition special_inf (neg : bool) (nsign : nat) (s : string)
  : option (float64 * nat) :=
  let n := commonPrefixLenIgnoreCase s "infinity" in
  let n := if (3 <? n)%nat && (n <? 8)%nat then 3%nat else n in
  if (n =? 3)%nat || (n =? 8)%nat then Some (Inf neg, (nsign + n)%nat) else None.

(** the value and the number of bytes read *)
Definition special (s : string) : option (float64 * nat) :=
  match s with
  | EmptyString => None
  | String c r =>
      if Ascii.eqb c "+" then special_inf false 1 r
      else if Ascii.eqb c "-" then special_inf true 1 r
      else if Ascii.eqb c "i" || Ascii.eqb c "I" then special_inf false 0 s
      else if Ascii.eqb c "n" || Ascii.eqb c "N" then
        if (commonPrefixLenIgnoreCase s "nan" =? 3)%nat then Some (NaN, 3%nat) else None
      else None
  end.

(** The state of the mantissa loop of [readFloat]; [mantissa] holds every
    digit read after the leading zeros, so [ndMant] is [nd]. *)
Record mant : Set := Mant {
  underscores : bool;
  sawdot : bool;
  sawdigits : bool;
  nd : Z;
  dp : Z;
  mantissa : Z
}.

Definition hex_digit (c : ascii) : bool := between "a" "f" (lower c).

Fixpoint mantissa_loop (base : Z) (st : mant) (s : string) : mant * string :=
  match s with
  | EmptyString => (st, s)
  | String c r =>
      if Ascii.eqb c "_" then
        mantissa_loop base
          (Mant true (sawdot st) (sawdigits st) (nd st) (dp st) (mantissa st)) r
      else if Ascii.eqb c "." then
        if sawdot st then (st, s)
        else mantissa_loop base
               (Mant (underscores st) true (sawdigits st) (nd st) (nd st) (mantissa st)) r
      else if is_digit c then
        if Ascii.eqb c "0" && (nd st =? 0) then
          mantissa_loop base
            (Mant (underscores st) (sawdot st) true (nd st) (dp st - 1) (mantissa st)) r
        else
          mantissa_loop base
            (Mant (underscores st) (sawdot st) true (nd st + 1) (dp st)
                  (mantissa st * base + (code c - 48))) r
      else if (base =? 16) && hex_digit c then
        mantissa_loop base
          (Mant (underscores st) (sawdot st) true (nd st + 1) (dp st)
                (mantissa st * 16 + (code (lower c) - 97 + 10))) r
      else (st, s)
  end.

(** the digits of the exponent: [if e < 10000 { e = e*10 + digit }] *)
Fixpoint exponent_loop (us : bool) (e : Z) (s : string) : bool * Z * string :=
  match s with
  | EmptyString => (us, e, s)
  | String c r =>
      if Ascii.eqb c "_" then exponent_loop true e r
      else if is_digit c then
        exponent_loop us (if e <? 10000 then e * 10 + (code c - 48) else e) r
      else (us, e, s)
  end.

Inductive saw : Set := SawNone | SawDigit | SawUnderscore | SawOther.

Fixpoint underscoreOK_loop (hex : bool) (sw : saw) (s : string) : bool :=
  match s with
  | EmptyString => match sw with SawUnderscore => false | _ => true end
  | String c r =>
      if is_digit c || (hex && hex_digit c) then underscoreOK_loop hex SawDigit r
      else if Ascii.eqb c "_" then
        match sw with
        | SawDigit => underscoreOK_loop hex SawUnderscore r
        | _ => false
        end
      else
        match sw with
        | SawUnderscore => false
        | _ => underscoreOK_loop hex SawOther r
        end
  end.

Definition underscoreOK (s : string) : bool :=
  let s := match s with
           | String c r => if Ascii.eqb c "-" || Ascii.eqb c "+" then r else s
           | EmptyString => s
           end in
  match s with
  | String z (String b r) =>
      let b' := lower b in
      if Ascii.eqb z "0" && (Ascii.eqb b' "b" || Ascii.eqb b' "o" || Ascii.eqb b' "x")
      then underscoreOK_loop (Ascii.eqb b' "x") SawDigit r
      else underscoreOK_loop false SawNone s
  | _ => underscoreOK_loop false SawNone s
  end.

(** What [readFloat] finds: the sign, whether the numeral is hexadecimal,
    the mantissa, the exponent of the base (10, or 2 for a hexadecimal
    numeral) and the number of bytes read. *)
Record numeral : Set := Numeral {
  neg : bool;
  hex : bool;
  mant_digits : Z;
  exp : Z;
  read : nat
}.

Definition readFloat (s : string) : option numeral :=
  match s with
  | EmptyString => None
  | String c0 r0 =>
      let '(neg, s1) :=
        if Ascii.eqb c0 "+" then (false, r0)
        else if Ascii.eqb c0 "-" then (true, r0)
        else (false, s) in
      let '(hex, s2) :=
        match s1 with
        | String z (String x (String d r)) =>
            if Ascii.eqb z "0" && Ascii.eqb (lower x) "x"
            then (true, String d r) else (false, s1)
        | _ => (false, s1)
        end in
      let base := if hex then 16 else 10 in
      let '(st, s3) := mantissa_loop base (Mant false false false 0 0 0) s2 in
      if negb (sawdigits st) then None else
      let dp0 := if sawdot st then dp st else nd st in
      let dp1 := if hex then dp0 * 4 else dp0 in
      let ndMant := if hex then nd st * 4 else nd st in
      let expChar := if hex then "p"%char else "e"%char in
      let finish (us : bool) (dp2 : Z) (rest : string) : option numeral :=
        let n := (String.length s - String.length rest)%nat in
        if us && negb (underscoreOK (prefix n s)) then None
        else Some (Numeral neg hex (mantissa st)
                     (if mantissa st =? 0 then 0 else dp2 - ndMant) n) in
      match s3 with
      | String e r3 =>
          if Ascii.eqb (lower e) expChar then
            match r3 with
            | EmptyString => None
            | String sg r4 =>
                let '(esign, s4) :=
                  if Ascii.eqb sg "+" then (1, r4)
                  else if Ascii.eqb sg "-" then (-1, r4)
                  else (1, r3) in
                match s4 with
                | EmptyString => None
                | String d _ =>
                    if negb (is_digit d) then None else
                    let '(us, e, rest) := exponent_loop (underscores st) 0 s4 in
                    finish us (dp1 + e * esign) rest
                end
            end
          else if hex then None
          else finish (underscores st) dp1 s3
      | EmptyString =>
          if hex then None else finish (underscores st) dp1 s3
      end
  end.

(** The binary64 value nearest to [p / q] ([0 < p], [0 < q]), ties to
    even: a mantissa below [2^53] and an exponent of at least [-1074].
    [None] when the rounded value exceeds the largest finite one. *)
Definition quotient_scaled (p q e : Z) : Z * Z :=
  if 0 <=? e then (p, q * 2 ^ e) else (p * 2 ^ (- e), q).

Definition round_binary64 (neg : bool) (p q : Z) : option float64 :=
  let l := Z.log2 p - Z.log2 q in
  let e0 :=
    let '(n, d) := quotient_scaled p q (l - 52) in
    if n / d <? 2 ^ 52 then l - 53 else l - 52 in
  let e := Z.max e0 (-1074) in
  let '(n, d) := quotient_scaled p q e in
  let m := Fmt.round_half_even n d in
  let '(m, e) := if m =? 2 ^ 53 then (2 ^ 52, e + 1) else (m, e) in
  if 971 <? e then None
  else match m with
       | Z.pos m' => Some (S754_finite neg m' e)
       | _ => Some (S754_zero neg)
       end.

Definition atof (n : numeral) : float64 * option NumError :=
  if mant_digits n =? 0 then (S754_zero (neg n), None)
  else
    let base := if hex n then 2 else 10 in
    let '(p, q) :=
      if 0 <=? exp n then (mant_digits n * base ^ exp n, 1)
      else (mant_digits n, base ^ (- exp n)) in
    match round_binary64 (neg n) p q with
    | Some f => (f, None)
    | None => (Inf (neg n), Some ErrRange)
    end.

Definition ParseFloat (s : string) : float64 * option NumError :=
  match special s with
  | Some (f, n) =>
      if (n =? String.length s)%nat then (f, None)
      else (S754_zero false, Some ErrSyntax)
  | None =>
      match readFloat s with
      | None => (S754_zero false, Some ErrSyntax)
      | Some n =>
          if (read n =? String.length s)%nat then atof n
          else (S754_zero false, Some ErrSyntax)
      end
  end.

End Strconv.

(** ** The data of [main.go] (lines 16-42) *)

Record PointsResponse : Set := {
  Forecast_url : string                 (* [Properties.Forecast] *)
}.

Record Period : Set := {
  Name : string;
  StartTime : string;
  Temperature : Z;
  TemperatureUnit : string;
  ShortForecast : string;
  IsDaytime : bool
}.

Record ForecastResponse : Set := {
  Periods : list Period                 (* [Properties.Periods] *)
}.

Record WeatherResult : Set := {
  Forecast : string;
  Temperature' : Z;
  Classification : string
}.

(** ** [encoding/json]

    A response body is either a JSON text, given by the value it denotes, or
    bytes that the scanner of [Unmarshal] refuses. A string is the text its
    literal denotes. A number keeps what [Unmarshal] looks at: whether its
    literal is an integer literal, and which. The members of an object are
    in the order of the text and may repeat a name. *)

#[warnings="-register-all"] Inductive json : Set :=
| JNull
| JBool (b : bool)
| JInt (n : Z)                          (* a literal without fraction or exponent *)
| JReal (literal : string)              (* a literal with a fraction or an exponent *)
| JString (s : string)
| JArray (items : list json)
| JObject (members : list (string * json)).

Inductive body : Set :=
| NotJSON                               (* [Unmarshal] returns a [*SyntaxError] *)
| JSON (v : json).

Module Json.
Import Bytes.

Inductive error : Set :=
| SyntaxError
| UnmarshalTypeError (Value : string).

(** [Unmarshal] goes on after a value of the wrong type and reports the
    first such error at the end ([saveError]). *)
Definition saveError (saved e : option error) : option error :=
  match saved with
  | Some _ => saved
  | None => e
  end.

Definition itoa_signed (n : Z) : string :=
  if n <? 0 then "-" ++ itoa (- n) else itoa n.

(** the [Value] of an [UnmarshalTypeError] *)
Definition describe (v : json) : string :=
  match v with
  | JNull => "null"
  | JBool _ => "bool"
  | JInt _ | JReal _ => "number"
  | JString _ => "string"
  | JArray _ => "array"
  | JObject _ => "object"
  end.

Definition mismatch {A : Type} (target : A) (v : json) : A * option error :=
  (target, Some (UnmarshalTypeError (describe v))).

(** Decoding into a variable that already holds a value: [null] leaves it
    as it is. *)
Definition into_string (target : string) (v : json) : string * option error :=
  match v with
  | JNull => (target, None)
  | JString s => (s, None)
  | _ => mismatch target v
  end.

Definition into_bool (target : bool) (v : json) : bool * option error :=
  match v with
  | JNull => (target, None)
  | JBool b => (b, None)
  | _ => mismatch target v
  end.

(** a Go [int] of 64 bits: the literal goes through [strconv.ParseInt] *)
Definition into_int (target : Z) (v : json) : Z * option error :=
  match v with
  | JNull => (target, None)
  | JInt n =>
      if (- 2 ^ 63 <=? n) && (n <? 2 ^ 63) then (n, None)
      else (target, Some (UnmarshalTypeError ("number " ++ itoa_signed n)))
  | JReal lit => (target, Some (UnmarshalTypeError ("number " ++ lit)))
  | _ => mismatch target v
  end.

(** A member name selects the field whose tag it equals under Unicode
    simple case folding. For a tag of ASCII letters the only letters
    beyond ASCII that fold to one of its letters are the Kelvin sign
    (bytes E2 84 AA, folds to [k]) and the long s (bytes C5 BF, folds to
    [s]). *)
Definition lower_ascii (c : ascii) : ascii :=
  if between "A" "Z" c then ascii_of_N (N_of_ascii c + 32) else c.

Fixpoint foldName (s : string) : string :=
  match s with
  | EmptyString => EmptyString
  | String a r =>
      match r with
      | String b r' =>
          if (code a =? 197) && (code b =? 191) then String "s" (foldName r')
          else
            match r' with
            | String c r'' =>
                if (code a =? 226) && (code b =? 132) && (code c =? 170)
                then String "k" (foldName r'')
                else String (lower_ascii a) (foldName r)
            | EmptyString => String (lower_ascii a) (foldName r)
            end
      | EmptyString => String (lower_ascii a) EmptyString
      end
  end.

Definition names (key tag : string) : bool :=
  String.eqb (foldName key) (foldName tag).

(** the members of an object, in order, each decoded into the target *)
Fixpoint into_fields {A : Type} (field : string -> A -> json -> A * option error)
    (target : A) (saved : option error) (members : list (string * json))
  : A * option error :=
  match members with
  | [] => (target, saved)
  | (key, v) :: rest =>
      let '(target', e) := field key target v in
      into_fields field target' (saveError saved e) rest
  end.

Definition into_struct {A : Type} (field : string -> A -> json -> A * option error)
    (target : A) (v : json) : A * option error :=
  match v with
  | JNull => (target, None)
  | JObject members => into_fields field target None members
  | _ => mismatch target v
  end.

(** *** [PointsResponse] *)

Definition Properties_of_points_field (key : string) (target : PointsResponse) (v : json)
  : PointsResponse * option error :=
  if names key "forecast" then
    let '(s, e) := into_string (Forecast_url target) v in
    ({| Forecast_url := s |}, e)
  else (target, None).

Definition PointsResponse_field (key : string) (target : PointsResponse) (v : json)
  : PointsResponse * option error :=
  if names key "properties" then into_struct Properties_of_points_field target v
  else (target, None).

(** *** [ForecastResponse] *)

Definition Period_field (key : string) (p : Period) (v : json) : Period * option error :=
  if names key "name" then
    let '(x, e) := into_string (Name p) v in
    ({| Name := x; StartTime := StartTime p; Temperature := Temperature p;
        TemperatureUnit := TemperatureUnit p; ShortForecast := ShortForecast p;
        IsDaytime := IsDaytime p |}, e)
  else if names key "startTime" then
    let '(x, e) := into_string (StartTime p) v in
    ({| Name := Name p; StartTime := x; Temperature := Temperature p;
        TemperatureUnit := TemperatureUnit p; ShortForecast := ShortForecast p;
        IsDaytime := IsDaytime p |}, e)
  else if names key "temperature" then
    let '(x, e) := into_int (Temperature p) v in
    ({| Name := Name p; StartTime := StartTime p; Temperature := x;
        TemperatureUnit := TemperatureUnit p; ShortForecast := ShortForecast p;
        IsDaytime := IsDaytime p |}, e)
  else if names key "temperatureUnit" then
    let '(x, e) := into_string (TemperatureUnit p) v in
    ({| Name := Name p; StartTime := StartTime p; Temperature := Temperature p;
        TemperatureUnit := x; ShortForecast := ShortForecast p;
        IsDaytime := IsDaytime p |}, e)
  else if names key "shortForecast" then
    let '(x, e) := into_string (ShortForecast p) v in
    ({| Name := Name p; StartTime := StartTime p; Temperature := Temperature p;
        TemperatureUnit := TemperatureUnit p; ShortForecast := x;
        IsDaytime := IsDaytime p |}, e)
  else if names key "isDaytime" then
    let '(x, e) := into_bool (IsDaytime p) v in
    ({| Name := Name p; StartTime := StartTime p; Temperature := Temperature p;
        TemperatureUnit := TemperatureUnit p; ShortForecast := ShortForecast p;
        IsDaytime := x |}, e)
  else (p, None).

Definition zero_Period : Period :=
  {| Name := ""; StartTime := ""; Temperature := 0; TemperatureUnit := "";
     ShortForecast := ""; IsDaytime := false |}.

(** A slice is the part [elems] of its array in use and the part [spare]
    behind it. Element [i] of a JSON array is decoded into element [i] of
    the array as it is (into a zero element beyond the array), and the
    slice ends after the last one; an empty JSON array gives a new, empty
    slice, and [null] gives [nil]. *)
Record slice : Set := { elems : list Period; spare : list Period }.

Definition nil_slice : slice := {| elems := []; spare := [] |}.

Fixpoint into_elements (array : list Period) (saved : option error) (items : list json)
  : list Period * list Period * option error :=
  match items with
  | [] => ([], array, saved)
  | v :: rest =>
      let '(p, e) := into_struct Period_field (hd zero_Period array) v in
      let '(ps, spare, saved') := into_elements (tl array) (saveError saved e) rest in
      (p :: ps, spare, saved')
  end.

Definition into_slice (target : slice) (v : json) : slice * option error :=
  match v with
  | JNull => (nil_slice, None)
  | JArray [] => (nil_slice, None)
  | JArray items =>
      let '(ps, spare, e) := into_elements (elems target ++ spare target) None items in
      ({| elems := ps; spare := spare |}, e)
  | _ => mismatch target v
  end.

Definition Properties_of_forecast_field (key : string) (target : slice) (v : json)
  : slice * option error :=
  if names key "periods" then into_slice target v else (target, None).

Definition ForecastResponse_field (key : string) (target : slice) (v : json)
  : slice * option error :=
  if names key "properties" then into_struct Properties_of_forecast_field target v
  else (target, None).

(** *** [json.Unmarshal(body, &pr)] and [json.Unmarshal(body2, &fr)], into
    variables that hold the zero value *)

Definition Unmarshal_PointsResponse (b : body) : PointsResponse * option error :=
  match b with
  | NotJSON => ({| Forecast_url := "" |}, Some SyntaxError)
  | JSON v => into_struct PointsResponse_field {| Forecast_url := "" |} v
  end.

Definition Unmarshal_ForecastResponse (b : body) : ForecastResponse * option error :=
  match b with
  | NotJSON => ({| Periods := [] |}, Some SyntaxError)
  | JSON v =>
      let '(s, e) := into_struct ForecastResponse_field nil_slice v in
      ({| Periods := elems s |}, e)
  end.

(** *** [json.NewEncoder(w).Encode(result)]: the value of the text written,
    its members named by the tags of [WeatherResult] *)
Definition Marshal_WeatherResult (r : WeatherResult) : json :=
  JObject [("forecast", JString (Forecast r));
           ("temperature", JInt (Temperature' r));
           ("classification", JString (Classification r))].

(** an error of [Unmarshal] other than a syntax error, or none *)
Definition no_syntax_error (e : option error) : Prop :=
  match e with
  | Some SyntaxError => False
  | _ => True
  end.

End Json.

(** ** [net/http] *)

Abbreviation Values := (gmap string (list string)).
Abbreviation Header := (gmap string (list string)).

Module Http.

Definition StatusOK : Z := 200.
Definition StatusBadRequest : Z := 400.
Definition StatusInternalServerError : Z := 500.

(** [url.Values.Get]: the first value of the key, [""] when there is none *)
Definition Get (v : Values) (key : string) : string :=
  match v !! key with
  | Some (x :: _) => x
  | _ => ""
  end.

(** [Header.Set], for a key in canonical form (as [User-Agent] and
    [Content-Type] are) *)
Definition Set_ (h : Header) (key value : string) : Header :=
  <[key := [value]]> h.

(** an outgoing request, as [http.NewRequest(method, url, nil)] makes it *)
Record Request : Type := {
  Method : string;
  URL : string;
  Header_ : Header
}.

(** What [main.go] looks at in a [*http.Response]: nothing but the bytes
    that [ioutil.ReadAll(resp.Body)] returns. [StatusCode] and the error
    of [ReadAll] are there to say that they are not looked at. *)
Record Response : Set := {
  StatusCode : Z;
  ReadAll : body;
  ReadAll_err : bool
}.

(** What was written to a [ResponseWriter]. [Line s] is [s] and a newline,
    as [fmt.Fprintln] writes it; [Encoded v] is the JSON text of [v] and a
    newline, as [Encoder.Encode] writes it. *)
Inductive written : Set :=
| Line (s : string)
| Encoded (v : json).

Record ResponseWriter : Type := {
  header : Header;
  status : option Z;                  (* [None]: no status line written yet *)
  wrote : list written
}.

Definition fresh : ResponseWriter :=
  {| header := ∅; status := None; wrote := [] |}.

Definition WriteHeader (w : ResponseWriter) (code : Z) : ResponseWriter :=
  match status w with
  | Some _ => w
  | None => {| header := header w; status := Some code; wrote := wrote w |}
  end.

(** the first write sends [200] when no status was written *)
Definition Write (w : ResponseWriter) (x : written) : ResponseWriter :=
  let w := WriteHeader w StatusOK in
  {| header := header w; status := status w; wrote := wrote w ++ [x] |}.

Definition Header_Set (w : ResponseWriter) (key value : string) : ResponseWriter :=
  {| header := Set_ (header w) key value; status := status w; wrote := wrote w |}.

(** [http.Error(w, error, code)], on a writer that has sent nothing yet: the
    two headers, the status line, the message as a line *)
Definition Error (w : ResponseWriter) (error : string) (code : Z) : ResponseWriter :=
  let w := Header_Set w "Content-Type" "text/plain; charset=utf-8" in
  let w := Header_Set w "X-Content-Type-Options" "nosniff" in
  let w := WriteHeader w code in
  Write w (Line error).

(** [json.NewEncoder(w).Encode(result)] *)
Definition Encode (w : ResponseWriter) (result : WeatherResult) : ResponseWriter :=
  Write w (Encoded (Json.Marshal_WeatherResult result)).

End Http.

(** ** Errors, panics and the outside world *)

(** a Go [error] value of this program *)
Inductive error : Set :=
| DoError (msg : string)                (* from [http.DefaultClient.Do] *)
| JsonError (e : Json.error).           (* from [json.Unmarshal] *)

Inductive panic : Set :=
| NilDereference                        (* a field of a nil [*http.Request] *)
| IndexOutOfRange (index length : Z).

Inductive outcome (A : Type) : Type :=
| Returned (a : A)
| Panicked (p : panic).
Arguments Returned {A} a.
Arguments Panicked {A} p.

(** The part of the world the program talks to. [W] is the state of the
    network and of the upstream service; [url_Parse_ok] says which strings
    [url.Parse] accepts (for the others [http.NewRequest] returns [nil] and
    an error); [client_Do] is [http.DefaultClient.Do], which gives a response
    or an error; [Now_Format] is [time.Now().Format("2006-01-02")]. *)
Record Env (W : Type) : Type := {
  url_Parse_ok : string -> bool;
  client_Do : Http.Request -> W -> (Http.Response + string) * W;
  Now_Format : W -> string
}.
Arguments url_Parse_ok {W} _ _.
Arguments client_Do {W} _ _ _.
Arguments Now_Format {W} _ _.

(** What a run has done so far: the world, the requests given to [Do] (the
    first one first) and the operands of each [log.Println]. *)
Record state (W : Type) : Type := {
  world : W;
  sent : list Http.Request;
  logged : list (string * error)
}.
Arguments world {W} _.
Arguments sent {W} _.
Arguments logged {W} _.

Definition start {W : Type} (w : W) : state W :=
  {| world := w; sent := []; logged := [] |}.

(** *** Computations that read and change the state and may panic *)

Definition M (W A : Type) : Type := state W -> outcome A * state W.

Definition ret {W A : Type} (a : A) : M W A := fun s => (Returned a, s).

Definition bind {W A B : Type} (m : M W A) (k : A -> M W B) : M W B :=
  fun s =>
    match m s with
    | (Returned a, s') => k a s'
    | (Panicked p, s') => (Panicked p, s')
    end.

Definition throw {W A : Type} (p : panic) : M W A := fun s => (Panicked p, s).

Declare Scope go_scope.
Delimit Scope go_scope with go.
Notation "x <- m ;; k" := (bind m (fun x => k))
  (at level 100, m at next level, right associativity) : go_scope.

Section Program.

Context {W : Type}.
Variable env : Env W.

Local Open Scope go_scope.

(** [http.NewRequest(method, url, nil)], its error dropped: the request, or
    [nil] *)
Definition NewRequest (method url : string) : option Http.Request :=
  if url_Parse_ok env url
  then Some {| Http.Method := method; Http.URL := url; Http.Header_ := ∅ |}
  else None.

(** [req.Header.Set(key, value)] *)
Definition Request_Header_Set (req : option Http.Request) (key value : string)
  : M W Http.Request :=
  match req with
  | None => throw NilDereference
  | Some r =>
      ret {| Http.Method := Http.Method r; Http.URL := Http.URL r;
             Http.Header_ := Http.Set_ (Http.Header_ r) key value |}
  end.

(** [http.DefaultClient.Do(req)] *)
Definition Do (req : Http.Request) : M W (Http.Response + string) :=
  fun s =>
    let '(r, w) := client_Do env req (world s) in
    (Returned r, {| world := w; sent := sent s ++ [req]; logged := logged s |}).

Definition Now : M W string :=
  fun s => (Returned (Now_Format env (world s)), s).

(** [log.Println(msg, err)] *)
Definition Println (msg : string) (err : error) : M W unit :=
  fun s =>
    (Returned tt,
     {| world := world s; sent := sent s; logged := logged s ++ [(msg, err)] |}).

(** *** [getForecast] ([main.go], lines 85-129) *)

Definition pointsURL (lat lon : float64) : string :=
  "https://api.weather.gov/points/" ++ Fmt.Sprintf_4f lat ++ "," ++ Fmt.Sprintf_4f lon.

(** the condition of line 121 *)
Definition todays_daytime (today : string) (p : Period) : bool :=
  IsDaytime p && (10 <=? Bytes.len (StartTime p)) &&
  String.eqb (Bytes.prefix 10 (StartTime p)) today.

(** the loop of lines 120-124: the period it returns from, if any *)
Fixpoint first_today (today : string) (periods : list Period) : option Period :=
  match periods with
  | [] => None
  | p :: rest =>
      if todays_daytime today p then Some p else first_today today rest
  end.

Definition getForecast (lat lon : float64)
  : M W (string * Z * string * option error) :=
  (* Step 1: Call points API *)
  pointsReq <- Request_Header_Set (NewRequest "GET" (pointsURL lat lon))
                 "User-Agent" "weather-service-example" ;;
  resp <- Do pointsReq ;;
  match resp with
  | inr err => ret ("", 0, "", Some (DoError err))
  | inl resp =>
      let body := Http.ReadAll resp in
      match Json.Unmarshal_PointsResponse body with
      | (_, Some err) => ret ("", 0, "", Some (JsonError err))
      | (pr, None) =>
          (* Step 2: Call forecast API *)
          let forecastURL := Forecast_url pr in
          foreReq <- Request_Header_Set (NewRequest "GET" forecastURL)
                       "User-Agent" "weather-service-example" ;;
          resp2 <- Do foreReq ;;
          match resp2 with
          | inr err => ret ("", 0, "", Some (DoError err))
          | inl resp2 =>
              let body2 := Http.ReadAll resp2 in
              match Json.Unmarshal_ForecastResponse body2 with
              | (_, Some err) => ret ("", 0, "", Some (JsonError err))
              | (fr, None) =>
                  (* Step 3: Find today's daytime period *)
                  today <- Now ;;
                  match first_today today (Periods fr) with
                  | Some p =>
                      ret (ShortForecast p, Temperature p,
                           classify (Temperature p), None)
                  | None =>
                      (* Fallback to first period *)
                      match Periods fr with
                      | p :: _ =>
                          ret (ShortForecast p, Temperature p,
                               classify (Temperature p), None)
                      | [] => throw (IndexOutOfRange 0 0)
                      end
                  end
              end
          end
      end
  end.

(** *** [weatherHandler] ([main.go], lines 50-83)

    [w] is the response writer, [query] is [r.URL.Query()]. *)
Definition weatherHandler (w : Http.ResponseWriter) (query : Values)
  : M W Http.ResponseWriter :=
  (* Parse query parameters *)
  let latStr := Http.Get query "lat" in
  let lonStr := Http.Get query "lon" in
  if String.eqb latStr "" || String.eqb lonStr "" then
    ret (Http.Error w "Missing lat or lon parameter" Http.StatusBadRequest)
  else
    match Strconv.ParseFloat latStr with
    | (_, Some _) => ret (Http.Error w "Invalid latitude" Http.StatusBadRequest)
    | (lat, None) =>
        match Strconv.ParseFloat lonStr with
        | (_, Some _) => ret (Http.Error w "Invalid longitude" Http.StatusBadRequest)
        | (lon, None) =>
            r <- getForecast lat lon ;;
            let '(forecast, temp, classification, err) := r in
            match err with
            | Some err =>
                _ <- Println "Error fetching forecast:" err ;;
                ret (Http.Error w "Failed to fetch forecast"
                       Http.StatusInternalServerError)
            | None =>
                let result := {| Forecast := forecast;
                                 Temperature' := temp;
                                 Classification := classification |} in
                let w := Http.Header_Set w "Content-Type" "application/json" in
                ret (Http.Encode w result)
            end
        end
    end.

(** *** Views of [getForecast] used to state its properties *)

Definition user_agent : string := "weather-service-example".

(** the request of lines 87-89 and the one of lines 103-105 *)
Definition get_with_user_agent (url : string) : Http.Request :=
  {| Http.Method := "GET"; Http.URL := url;
     Http.Header_ := Http.Set_ ∅ "User-Agent" user_agent |}.

(** Lines 86-116 on their own: the two exchanges with the upstream, which
    end in an error or in the decoded forecast. *)
Definition fetchForecast (lat lon : float64) : M W (ForecastResponse + error) :=
  pointsReq <- Request_Header_Set (NewRequest "GET" (pointsURL lat lon))
                 "User-Agent" "weather-service-example" ;;
  resp <- Do pointsReq ;;
  match resp with
  | inr err => ret (inr (DoError err))
  | inl resp =>
      match Json.Unmarshal_PointsResponse (Http.ReadAll resp) with
      | (_, Some err) => ret (inr (JsonError err))
      | (pr, None) =>
          foreReq <- Request_Header_Set (NewRequest "GET" (Forecast_url pr))
                       "User-Agent" "weather-service-example" ;;
          resp2 <- Do foreReq ;;
          match resp2 with
          | inr err => ret (inr (DoError err))
          | inl resp2 =>
              match Json.Unmarshal_ForecastResponse (Http.ReadAll resp2) with
              | (_, Some err) => ret (inr (JsonError err))
              | (fr, None) => ret (inl fr)
              end
          end
      end
  end.

(** Lines 118-128 on their own: the period the function returns the data
    of; [None] where line 127 indexes an empty slice. *)
Definition selected (today : string) (periods : list Period) : option Period :=
  match first_today today periods with
  | Some p => Some p
  | None => head periods
  end.

(** the upstream has failed with [e]: a request was refused by [Do], or a
    body was refused by [json.Unmarshal] *)
Inductive upstream_failure (lat lon : float64) (s : state W) : error -> Prop :=
| points_request_failed msg w1 :
    url_Parse_ok env (pointsURL lat lon) = true ->
    client_Do env (get_with_user_agent (pointsURL lat lon)) (world s) = (inr msg, w1) ->
    upstream_failure lat lon s (DoError msg)
| points_body_refused resp w1 pr e :
    url_Parse_ok env (pointsURL lat lon) = true ->
    client_Do env (get_with_user_agent (pointsURL lat lon)) (world s) = (inl resp, w1) ->
    Json.Unmarshal_PointsResponse (Http.ReadAll resp) = (pr, Some e) ->
    upstream_failure lat lon s (JsonError e)
| forecast_request_failed resp w1 pr msg w2 :
    url_Parse_ok env (pointsURL lat lon) = true ->
    client_Do env (get_with_user_agent (pointsURL lat lon)) (world s) = (inl resp, w1) ->
    Json.Unmarshal_PointsResponse (Http.ReadAll resp) = (pr, None) ->
    url_Parse_ok env (Forecast_url pr) = true ->
    client_Do env (get_with_user_agent (Forecast_url pr)) w1 = (inr msg, w2) ->
    upstream_failure lat lon s (DoError msg)
| forecast_body_refused resp w1 pr resp2 w2 fr e :
    url_Parse_ok env (pointsURL lat lon) = true ->
    client_Do env (get_with_user_agent (pointsURL lat lon)) (world s) = (inl resp, w1) ->
    Json.Unmarshal_PointsResponse (Http.ReadAll resp) = (pr, None) ->
    url_Parse_ok env (Forecast_url pr) = true ->
    client_Do env (get_with_user_agent (Forecast_url pr)) w1 = (inl resp2, w2) ->
    Json.Unmarshal_ForecastResponse (Http.ReadAll resp2) = (fr, Some e) ->
    upstream_failure lat lon s (JsonError e).

(** [getForecast] returns the error [e] *)
Definition returns_error (lat lon : float64) (s : state W) (e : error) : Prop :=
  exists r s', getForecast lat lon s = (Returned (r, Some e), s').

End Program.

(** The same world, except that every response carries the status code and
    the [ReadAll] error that [f] gives it. *)
Definition with_status {W : Type} (f : Http.Response -> Z * bool) (env : Env W) : Env W :=
  {| url_Parse_ok := url_Parse_ok env;
     client_Do := fun req w =>
       match client_Do env req w with
       | (inl resp, w') =>
           (inl {| Http.StatusCode := fst (f resp);
                   Http.ReadAll := Http.ReadAll resp;
                   Http.ReadAll_err := snd (f resp) |}, w')
       | (inr e, w') => (inr e, w')
       end;
     Now_Format := Now_Format env |}.

(** ** The validation of the query, in the words of the specification *)

Definition parses (s : string) : bool :=
  match snd (Strconv.ParseFloat s) with
  | None => true
  | Some _ => false
  end.

(** the query gives the key a value *)
Definition present (query : Values) (key : string) : bool :=
  match query !! key with
  | Some (_ :: _) => true
  | _ => false
  end.

(** The three rejections, in the order of the specification, where a
    parameter counts as missing when it has no value or the empty value. *)
Inductive rejected (query : Values) : string -> Prop :=
| rejected_missing :
    Http.Get query "lat" = "" \/ Http.Get query "lon" = "" ->
    rejected query "Missing lat or lon parameter"
| rejected_latitude :
    Http.Get query "lat" <> "" -> Http.Get query "lon" <> "" ->
    parses (Http.Get query "lat") = false ->
    rejected query "Invalid latitude"
| rejected_longitude :
    Http.Get query "lat" <> "" -> Http.Get query "lon" <> "" ->
    parses (Http.Get query "lat") = true ->
    parses (Http.Get query "lon") = false ->
    rejected query "Invalid longitude".

(** a calendar date as [2006-01-02] prints it: [YYYY-MM-DD] *)
Definition date_format (d : string) : bool :=
  match d with
  | String y1 (String y2 (String y3 (String y4 (String d1 (String m1 (String m2
      (String d2 (String a1 (String a2 EmptyString))))))))) =>
      Bytes.is_digit y1 && Bytes.is_digit y2 && Bytes.is_digit y3 && Bytes.is_digit y4 &&
      Ascii.eqb d1 "-" && Bytes.is_digit m1 && Bytes.is_digit m2 &&
      Ascii.eqb d2 "-" && Bytes.is_digit a1 && Bytes.is_digit a2
  | _ => false
  end.

(** the period the specification selects: the first one that is a daytime
    period and whose start time begins with the date, else the first one *)
Definition starts_today (d : string) (p : Period) : bool :=
  IsDaytime p && String.eqb (substring 0 10 (StartTime p)) d.

Definition spec_selected (d : string) (periods : list Period) : option Period :=
  match List.find (starts_today d) periods with
  | Some p => Some p
  | None => head periods
  end.

(** ** A stubbed upstream

    The world of the examples: the upstream answers the points lookup of
    (38.8977, -77.0365) with [points] and the request for [forecast_url]
    with [forecast]; any other request is refused. The state of the world
    counts the requests it has seen. *)

Module Stub.

Definition lat : string := "38.8977".
Definition lon : string := "-77.0365".

Definition query : Values := {[ "lat" := [lat]; "lon" := [lon] ]}.

Definition points_url : string := "https://api.weather.gov/points/38.8977,-77.0365".
Definition forecast_url : string :=
  "https://api.weather.gov/gridpoints/LWX/97,71/forecast".

Definition ok (b : body) : Http.Response + string :=
  inl {| Http.StatusCode := 200; Http.ReadAll := b; Http.ReadAll_err := false |}.

(** URLs that [url.Parse] accepts, among others: the scheme and the host of
    the service, then a path of letters, digits and [/ , . + -] *)
Fixpoint plain_path (s : string) : bool :=
  match s with
  | EmptyString => true
  | String c r =>
      (Bytes.between "a" "z" c || Bytes.between "A" "Z" c || Bytes.is_digit c ||
       Ascii.eqb c "/" || Ascii.eqb c "," || Ascii.eqb c "." ||
       Ascii.eqb c "+" || Ascii.eqb c "-") && plain_path r
  end.

Definition service_url (u : string) : bool :=
  String.eqb (substring 0 24 u) "https://api.weather.gov/" &&
  plain_path (substring 24 (String.length u - 24) u).

Definition env (today : string) (points forecast : Http.Response + string) : Env nat :=
  {| url_Parse_ok := service_url;
     client_Do := fun req n =>
       (if String.eqb (Http.URL req) points_url then points
        else if String.eqb (Http.URL req) forecast_url then forecast
        else inr "connection refused", S n);
     Now_Format := fun _ => today |}.

Definition points_body : body :=
  JSON (JObject [("properties", JObject [("forecast", JString forecast_url)])]).

Definition period (name start : string) (temp : Z) (short : string) (day : bool) : json :=
  JObject [("name", JString name); ("startTime", JString start);
           ("temperature", JInt temp); ("temperatureUnit", JString "F");
           ("shortForecast", JString short); ("isDaytime", JBool day)].

Definition forecast_body (periods : list json) : body :=
  JSON (JObject [("properties", JObject [("periods", JArray periods)])]).

Definition today : string := "2026-10-30".

Definition tonight_json : json :=
  period "Tonight" "2026-10-29T18:00:00-04:00" 48 "Clear" false.
Definition today_json : json :=
  period "Today" "2026-10-30T06:00:00-04:00" 85 "Sunny" true.
Definition tomorrow_json : json :=
  period "Saturday" "2026-10-31T06:00:00-04:00" 61 "Cloudy" true.

(** the same periods, decoded *)
Definition tonight : Period :=
  {| Name := "Tonight"; StartTime := "2026-10-29T18:00:00-04:00"; Temperature := 48;
     TemperatureUnit := "F"; ShortForecast := "Clear"; IsDaytime := false |}.
Definition tomorrow : Period :=
  {| Name := "Saturday"; StartTime := "2026-10-31T06:00:00-04:00"; Temperature := 61;
     TemperatureUnit := "F"; ShortForecast := "Cloudy"; IsDaytime := true |}.

(** the coordinate that [lat] and [lon] denote *)
Definition latitude : float64 := fst (Strconv.ParseFloat lat).
Definition longitude : float64 := fst (Strconv.ParseFloat lon).

(** Where a run that starts in [start 0] is after the two requests. *)
Definition after_two_requests : state nat :=
  {| world := 2%nat;
     sent := [ {| Http.Method := "GET"; Http.URL := points_url;
                  Http.Header_ := {[ "User-Agent" := ["weather-service-example"] ]} |};
               {| Http.Method := "GET"; Http.URL := forecast_url;
                  Http.Header_ := {[ "User-Agent" := ["weather-service-example"] ]} |} ];
     logged := [] |}.

Definition after_one_request : state nat :=
  {| world := 1%nat;
     sent := [ {| Http.Method := "GET"; Http.URL := points_url;
                  Http.Header_ := {[ "User-Agent" := ["weather-service-example"] ]} |} ];
     logged := [] |}.

(** a forecast with a daytime period of today, after a period of the night
    before *)
Definition sunny : Env nat :=
  env today (ok points_body) (ok (forecast_body [tonight_json; today_json; tomorrow_json])).

(** a forecast without a daytime period of today *)
Definition stale : Env nat :=
  env today (ok points_body) (ok (forecast_body [tonight_json; tomorrow_json])).
Definition stale_forecast : ForecastResponse := {| Periods := [tonight; tomorrow] |}.
Definition stale_reply : Http.ResponseWriter :=
  Http.Encode (Http.Header_Set Http.fresh "Content-Type" "application/json")
    {| Forecast := "Clear"; Temperature' := 48; Classification := "cold" |}.

(** a forecast without periods *)
Definition empty : Env nat :=
  env today (ok points_body) (ok (forecast_body [])).

(** the points lookup is refused *)
Definition refused : Env nat :=
  env today (inr "dial tcp: connection refused") (ok (forecast_body [today_json])).

(** the points lookup answers with JSON of another shape: an error
    document whose [properties] is a number *)
Definition misshapen : Env nat :=
  env today (ok (JSON (JObject [("properties", JInt 5)]))) (ok (forecast_body [today_json])).

(** a forecast whose temperature is a quantity with a unit, not a number *)
Definition quantity_json : json :=
  JObject [("name", JString "Today"); ("startTime", JString "2026-10-30T06:00:00-04:00");
           ("temperature", JObject [("unitCode", JString "wmoUnit:degF"); ("value", JInt 85)]);
           ("shortForecast", JString "Sunny"); ("isDaytime", JBool true)].
Definition quantities : Env nat :=
  env today (ok points_body) (ok (forecast_body [quantity_json])).

End Stub.

(** ** Views used by the further properties *)

(** the order of the labels: cold, moderate, hot *)
Definition rank (label : string) : Z :=
  if String.eqb label "cold" then 0
  else if String.eqb label "moderate" then 1
  else if String.eqb label "hot" then 2
  else -1.

(** an integer that a Go [int] of 64 bits holds *)
Definition int64 (n : Z) : bool := (- 2 ^ 63 <=? n) && (n <? 2 ^ 63).

(** The documents of the upstream, by the tags of lines 16-35: the points
    document that holds a forecast URL, the object of a period, and the
    forecast document of a sequence of periods. *)
Definition points_document (url : string) : body :=
  JSON (JObject [("properties", JObject [("forecast", JString url)])]).

Definition Period_json (p : Period) : json :=
  JObject [("name", JString (Name p));
           ("startTime", JString (StartTime p));
           ("temperature", JInt (Temperature p));
           ("temperatureUnit", JString (TemperatureUnit p));
           ("shortForecast", JString (ShortForecast p));
           ("isDaytime", JBool (IsDaytime p))].

Definition forecast_document (periods : list Period) : body :=
  JSON (JObject [("properties", JObject [("periods", JArray (map Period_json periods))])]).

(** the reply of lines 76-82 for a period *)
Definition reply_of (p : Period) : Http.ResponseWriter :=
  Http.Encode (Http.Header_Set Http.fresh "Content-Type" "application/json")
    {| Forecast := ShortForecast p; Temperature' := Temperature p;
       Classification := classify (Temperature p) |}.

(** the four lines that [weatherHandler] gives to [http.Error] *)
Definition error_lines : list string :=
  ["Missing lat or lon parameter"; "Invalid latitude"; "Invalid longitude";
   "Failed to fetch forecast"].

(** the digits of a string read as one decimal numeral, continuing from
    [acc]; a byte that is no digit is passed over *)
Fixpoint digits_value (acc : Z) (s : string) : Z :=
  match s with
  | EmptyString => acc
  | String c r =>
      if Bytes.is_digit c then digits_value (acc * 10 + (Bytes.code c - 48)) r
      else digits_value acc r
  end.

(** a decimal numeral: an optional [-], the digits before the point, the
    point, the digits after it *)
Definition decimal (neg : bool) (int frac : string) : string :=
  (if neg then "-" else "") ++ int ++ "." ++ frac.



(** *** A coordinate to four decimals, in the words of the specification *)

(** the sign bit of a float *)
Definition sign_bit (f : float64) : bool :=
  match f with
  | S754_zero neg | S754_infinity neg | S754_finite neg _ _ => neg
  | S754_nan => false
  end.

(** [|f|] for a finite [f], as a fraction: numerator, denominator *)
Definition magnitude (f : float64) : Z * Z :=
  match f with
  | S754_finite _ m e => (Z.pos m * 2 ^ Z.max 0 e, 2 ^ Z.max 0 (- e))
  | _ => (0, 1)
  end.

(** [k] is the multiple of 10^-4 nearest to [num / den], the even one when
    two are equally near *)
Definition nearest_ten_thousandth (x : Z * Z) (k : Z) : Prop :=
  let '(num, den) := x in
  2 * Z.abs (k * den - num * 10000) <= den /\
  (2 * Z.abs (k * den - num * 10000) = den -> Z.even k = true).

(** [text] is the finite [f] to four decimals: the sign of [f], an integer
    part without a leading zero, a point and four digits, which together
    denote the multiple of 10^-4 nearest to [|f|] *)
Definition to_four_decimals (f : float64) (text : string) : Prop :=
  exists int frac : string,
    text = decimal (sign_bit f) int frac /\
    Bytes.all_digits int = true /\ int <> "" /\
    (int = "0" \/ String.prefix "0" int = false) /\
    Bytes.all_digits frac = true /\ String.length frac = 4%nat /\
    nearest_ten_thousandth (magnitude f) (digits_value 0 (int ++ frac)).

(** a coordinate as the points URL is to hold it *)
Definition formatted (f : float64) (text : string) : Prop :=
  match f with
  | S754_nan => text = "NaN"
  | S754_infinity neg => text = if neg then "-Inf" else "+Inf"
  | _ => to_four_decimals f text
  end.

(** more worlds for the examples *)
Module Scenario.

Definition today_period : Period :=
  {| Name := "Today"; StartTime := "2026-10-30T06:00:00-04:00"; Temperature := 85;
     TemperatureUnit := "F"; ShortForecast := "Sunny"; IsDaytime := true |}.

Definition sunny_periods : list Period := [Stub.tonight; today_period; Stub.tomorrow].

(** a points document whose forecast URL [url.Parse] refuses: a blank in
    the host *)
Definition bad_forecast_url : string := "https://api weather.gov/forecast".
Definition unparsable : Env nat :=
  Stub.env Stub.today (Stub.ok (points_document bad_forecast_url))
    (Stub.ok (forecast_document sunny_periods)).

(** the forecast request is refused *)
Definition forecast_refused : Env nat :=
  Stub.env Stub.today (Stub.ok Stub.points_body) (inr "context deadline exceeded").

Definition after_points : state nat :=
  {| world := 1%nat; sent := sent Stub.after_one_request; logged := [] |}.

Definition after_refusal : state nat :=
  {| world := 2%nat; sent := sent Stub.after_two_requests;
     logged := [("Error fetching forecast:", DoError "context deadline exceeded")] |}.

End Scenario.

(** * Properties *)

(** ** The library, on examples *)

Example ParseFloat_decimal :
  Strconv.ParseFloat "38.8977" = (S754_finite false 5474364600799042 (-47), None).
Proof. vm_compute; reflexivity. Qed.

Example ParseFloat_forms :
  map parses ["-77.0365"; ".5"; "5."; "1e3"; "1_000.5"; "0x1p-2"; "NaN"; "-Inf"; "infinity"] =
    [true; true; true; true; true; true; true; true; true] /\
  map parses [""; "abc"; "."; "1e"; "0x1"; "+nan"; "infin"; "1__0"; " 1"; "1 "] =
    [false; false; false; false; false; false; false; false; false; false].
Proof. split; vm_compute; reflexivity. Qed.

Example ParseFloat_range :
  Strconv.ParseFloat "1.7976931348623157e308" = (S754_finite false 9007199254740991 971, None) /\
  Strconv.ParseFloat "1e400" = (Inf false, Some Strconv.ErrRange) /\
  Strconv.ParseFloat "4.9e-324" = (S754_finite false 1 (-1074), None) /\
  Strconv.ParseFloat "1e-400" = (S754_zero false, None).
Proof. repeat split; vm_compute; reflexivity. Qed.

Example Sprintf_4f_rounds :
  map (fun x => Fmt.Sprintf_4f (fst (Strconv.ParseFloat x)))
      ["38.8977"; "-77.0365"; "0.1"; "0.03125"; "0.09375"; "-0.00001"; "1e3"; "-0"] =
    ["38.8977"; "-77.0365"; "0.1000"; "0.0312"; "0.0938"; "-0.0000"; "1000.0000"; "-0.0000"].
Proof. vm_compute; reflexivity. Qed.

Example Unmarshal_is_case_insensitive_and_skips_unknown_members :
  Json.Unmarshal_PointsResponse
    (JSON (JObject [("id", JString "x");
                    ("Properties", JObject [("FORECAST", JString "u"); ("zone", JNull)])])) =
    ({| Forecast_url := "u" |}, None).
Proof. vm_compute; reflexivity. Qed.

Example Unmarshal_without_periods :
  Json.Unmarshal_ForecastResponse (JSON (JObject [])) = ({| Periods := [] |}, None) /\
  Json.Unmarshal_ForecastResponse (JSON JNull) = ({| Periods := [] |}, None) /\
  Json.Unmarshal_ForecastResponse (JSON (JArray [])) =
    ({| Periods := [] |}, Some (Json.UnmarshalTypeError "array")).
Proof. repeat split; vm_compute; reflexivity. Qed.

Example Unmarshal_number_into_int :
  map (fun v => Json.into_int 7 v) [JInt 85; JInt (2 ^ 63); JReal "85.0"; JNull; JString "85"] =
    [(85, None);
     (7, Some (Json.UnmarshalTypeError "number 9223372036854775808"));
     (7, Some (Json.UnmarshalTypeError "number 85.0"));
     (7, None);
     (7, Some (Json.UnmarshalTypeError "string"))].
Proof. vm_compute; reflexivity. Qed.

(** ** The classifier *)

(** C1. [classify] is a total function of the integers: it answers [hot]
    exactly from 80 up, [cold] exactly up to 50, [moderate] exactly
    strictly between the two; in particular 79 is moderate, 80 is hot, 50 is
    cold and 51 is moderate. *)
Theorem classify_thresholds :
  (forall t : Z,
      (classify t = "hot" <-> 80 <= t) /\
      (classify t = "cold" <-> t <= 50) /\
      (classify t = "moderate" <-> 50 < t < 80)) /\
  classify 79 = "moderate" /\ classify 80 = "hot" /\
  classify 50 = "cold" /\ classify 51 = "moderate".
Proof.
  split; [| repeat split; reflexivity].
  intros t. unfold classify.
  destruct (Z.geb_spec t 80) as [Hge | Hlt].
  - repeat split; intros; try discriminate; try lia; reflexivity.
  - destruct (Z.leb_spec t 50) as [Hle | Hgt];
      repeat split; intros; try discriminate; try lia; reflexivity.
Qed.

(** ** Strings *)

Lemma substring_0_length (n : nat) (s : string) :
  String.length (substring 0 n s) = Nat.min n (String.length s).
Proof.
  revert s. induction n as [| n IH]; intros [| c s]; simpl; try reflexivity.
  now rewrite IH.
Qed.

Lemma date_format_length (d : string) :
  date_format d = true -> String.length d = 10%nat.
Proof.
  unfold date_format.
  repeat (destruct d as [| ? d]; [discriminate |]).
  destruct d; [reflexivity | discriminate].
Qed.

(** On a date, the test of line 121 is the test of the specification: a
    start time whose first ten bytes are the date has ten bytes. *)
Lemma todays_daytime_starts_today (d : string) (p : Period) :
  String.length d = 10%nat -> todays_daytime d p = starts_today d p.
Proof.
  intros Hd. unfold todays_daytime, starts_today, Bytes.prefix, Bytes.len.
  destruct (IsDaytime p); simpl; [| reflexivity].
  destruct (String.eqb_spec (substring 0 10 (StartTime p)) d) as [He | Hne].
  - rewrite andb_true_r. apply Z.leb_le.
    pose proof (substring_0_length 10 (StartTime p)) as Hl.
    rewrite He, Hd in Hl. lia.
  - apply andb_false_r.
Qed.

Lemma first_today_find (d : string) (periods : list Period) :
  String.length d = 10%nat -> first_today d periods = List.find (starts_today d) periods.
Proof.
  intros Hd. induction periods as [| p rest IH]; simpl; [reflexivity |].
  rewrite (todays_daytime_starts_today d p Hd), IH. reflexivity.
Qed.

Lemma selected_spec_selected (d : string) (periods : list Period) :
  String.length d = 10%nat -> selected d periods = spec_selected d periods.
Proof.
  intros Hd. unfold selected, spec_selected. now rewrite first_today_find.
Qed.

Lemma selected_nonempty (d : string) (periods : list Period) :
  periods <> [] -> exists p, selected d periods = Some p.
Proof.
  intros Hne. unfold selected.
  destruct (first_today d periods) as [p |]; [now exists p |].
  destruct periods as [| p rest]; [contradiction | now exists p].
Qed.

(** ** The resolver, step by step *)

Ltac case_match_goal :=
  match goal with
  | |- context [match ?x with _ => _ end] => destruct x eqn:?
  end.

Ltac run := unfold bind, ret, throw, Do, Now, Println; simpl.

Section Resolver.

Context {W : Type}.
Variable env : Env W.

(** [getForecast] is the exchange with the upstream followed by the
    selection among the periods it delivered. *)
Lemma getForecast_steps (lat lon : float64) (s : state W) :
  getForecast env lat lon s =
  match fetchForecast env lat lon s with
  | (Returned (inl fr), s') =>
      match selected (Now_Format env (world s')) (Periods fr) with
      | Some p =>
          (Returned (ShortForecast p, Temperature p, classify (Temperature p), None), s')
      | None => (Panicked (IndexOutOfRange 0 0), s')
      end
  | (Returned (inr e), s') => (Returned ("", 0, "", Some e), s')
  | (Panicked p, s') => (Panicked p, s')
  end.
Proof.
  unfold getForecast, fetchForecast, selected, Request_Header_Set, NewRequest.
  run.
  repeat (case_match_goal; run; try reflexivity; try congruence).
Qed.

(** The handler on a query whose two parameters parse. *)
Lemma parses_empty : parses "" = false.
Proof. reflexivity. Qed.

Lemma parses_value (x : string) :
  parses x = true -> Strconv.ParseFloat x = (fst (Strconv.ParseFloat x), None).
Proof.
  unfold parses. destruct (Strconv.ParseFloat x) as [f [e |]]; simpl; congruence.
Qed.

Lemma ParseFloat_nonempty (x : string) (f : float64) :
  Strconv.ParseFloat x = (f, None) -> String.eqb x "" = false.
Proof.
  intros Hx. destruct (String.eqb_spec x "") as [-> |]; [discriminate | reflexivity].
Qed.

Lemma weatherHandler_accepted (w : Http.ResponseWriter) (query : Values)
    (lat lon : float64) (s : state W) :
  Strconv.ParseFloat (Http.Get query "lat") = (lat, None) ->
  Strconv.ParseFloat (Http.Get query "lon") = (lon, None) ->
  weatherHandler env w query s =
  match getForecast env lat lon s with
  | (Returned (_, _, _, Some err), s') =>
      (Returned (Http.Error w "Failed to fetch forecast" Http.StatusInternalServerError),
       {| world := world s'; sent := sent s';
          logged := logged s' ++ [("Error fetching forecast:", err)] |})
  | (Returned (forecast, temp, classification, None), s') =>
      (Returned (Http.Encode (Http.Header_Set w "Content-Type" "application/json")
                   {| Forecast := forecast; Temperature' := temp;
                      Classification := classification |}), s')
  | (Panicked p, s') => (Panicked p, s')
  end.
Proof.
  intros Hlat Hlon. unfold weatherHandler.
  rewrite (ParseFloat_nonempty _ _ Hlat), (ParseFloat_nonempty _ _ Hlon). simpl.
  rewrite Hlat, Hlon. unfold bind.
  destruct (getForecast env lat lon s) as [[[[[f t] c] [e |]] | p] s']; reflexivity.
Qed.

(** The handler on a query it rejects: the reply, and nothing else done. *)
Lemma weatherHandler_rejected (w : Http.ResponseWriter) (query : Values)
    (msg : string) (s : state W) :
  rejected query msg ->
  weatherHandler env w query s = (Returned (Http.Error w msg Http.StatusBadRequest), s).
Proof.
  intros [[Hlat | Hlon] | Hlat Hlon Hp | Hlat Hlon Hp Hq]; unfold weatherHandler.
  - rewrite Hlat. reflexivity.
  - rewrite Hlon. rewrite orb_true_r. reflexivity.
  - apply String.eqb_neq in Hlat, Hlon. rewrite Hlat, Hlon. simpl.
    unfold parses in Hp.
    destruct (Strconv.ParseFloat (Http.Get query "lat")) as [f [e |]];
      [reflexivity | discriminate].
  - apply String.eqb_neq in Hlat, Hlon. rewrite Hlat, Hlon. simpl.
    rewrite (parses_value _ Hp). unfold parses in Hq.
    destruct (Strconv.ParseFloat (Http.Get query "lon")) as [f [e |]];
      [reflexivity | discriminate].
Qed.

End Resolver.

(** ** The selection of the period *)

(** C2. When the upstream has delivered a non-empty sequence of periods and
    the date [d] of the day has the format YYYY-MM-DD, the resolver returns
    the data of the first period that is a daytime period and whose start
    time begins with [d], and the data of the first period of the sequence
    when there is no such period; in both cases the endpoint answers 200
    with that data. *)
Theorem today_else_first {W : Type} (env : Env W) (query : Values) (lat lon : float64)
    (s s' : state W) (fr : ForecastResponse) (d : string) :
  Strconv.ParseFloat (Http.Get query "lat") = (lat, None) ->
  Strconv.ParseFloat (Http.Get query "lon") = (lon, None) ->
  fetchForecast env lat lon s = (Returned (inl fr), s') ->
  Periods fr <> [] ->
  Now_Format env (world s') = d ->
  date_format d = true ->
  exists p,
    (List.find (starts_today d) (Periods fr) = Some p \/
     List.find (starts_today d) (Periods fr) = None /\ head (Periods fr) = Some p) /\
    getForecast env lat lon s =
      (Returned (ShortForecast p, Temperature p, classify (Temperature p), None), s') /\
    exists w,
      weatherHandler env Http.fresh query s = (Returned w, s') /\
      Http.status w = Some 200 /\
      Http.wrote w =
        [Http.Encoded (JObject [("forecast", JString (ShortForecast p));
                                ("temperature", JInt (Temperature p));
                                ("classification", JString (classify (Temperature p)))])].
Proof.
  intros Hlat Hlon Hfetch Hne Hnow Hd.
  apply date_format_length in Hd.
  destruct (selected_nonempty d (Periods fr) Hne) as [p Hp].
  assert (Hrun : getForecast env lat lon s =
    (Returned (ShortForecast p, Temperature p, classify (Temperature p), None), s')).
  { rewrite getForecast_steps, Hfetch, Hnow, Hp. reflexivity. }
  exists p. split; [| split; [exact Hrun |]].
  - rewrite (selected_spec_selected d _ Hd) in Hp. unfold spec_selected in Hp.
    destruct (List.find (starts_today d) (Periods fr)) as [q |].
    + left. exact Hp.
    + right. split; [reflexivity | exact Hp].
  - eexists. rewrite (weatherHandler_accepted env _ _ _ _ _ Hlat Hlon).
    rewrite Hrun. repeat split.
Qed.

(** The fallback: no daytime period starts on the day, the first period is
    served. *)
Lemma today_else_first_witness :
  exists p,
    (List.find (starts_today Stub.today) (Periods Stub.stale_forecast) = Some p \/
     List.find (starts_today Stub.today) (Periods Stub.stale_forecast) = None /\
     head (Periods Stub.stale_forecast) = Some p) /\
    getForecast Stub.stale Stub.latitude Stub.longitude (start 0%nat) =
      (Returned (ShortForecast p, Temperature p, classify (Temperature p), None),
       Stub.after_two_requests) /\
    exists w,
      weatherHandler Stub.stale Http.fresh Stub.query (start 0%nat) =
        (Returned w, Stub.after_two_requests) /\
      Http.status w = Some 200 /\
      Http.wrote w =
        [Http.Encoded (JObject [("forecast", JString (ShortForecast p));
                                ("temperature", JInt (Temperature p));
                                ("classification", JString (classify (Temperature p)))])].
Proof.
  apply (today_else_first Stub.stale Stub.query Stub.latitude Stub.longitude
           (start 0%nat) Stub.after_two_requests Stub.stale_forecast Stub.today).
  - vm_compute; reflexivity.
  - vm_compute; reflexivity.
  - vm_compute; reflexivity.
  - discriminate.
  - reflexivity.
  - reflexivity.
Defined.

Example stale_forecast_serves_the_first_period :
  exists w,
    weatherHandler Stub.stale Http.fresh Stub.query (start 0%nat) =
      (Returned w, Stub.after_two_requests) /\
    Http.status w = Some 200 /\
    Http.wrote w = [Http.Encoded (JObject [("forecast", JString "Clear");
                                           ("temperature", JInt 48);
                                           ("classification", JString "cold")])].
Proof. eexists. split; [vm_compute; reflexivity | split; reflexivity]. Qed.

Example sunny_forecast_serves_today :
  exists w,
    weatherHandler Stub.sunny Http.fresh Stub.query (start 0%nat) =
      (Returned w, Stub.after_two_requests) /\
    Http.status w = Some 200 /\
    Http.header w !! "Content-Type" = Some ["application/json"] /\
    Http.wrote w = [Http.Encoded (JObject [("forecast", JString "Sunny");
                                           ("temperature", JInt 85);
                                           ("classification", JString "hot")])].
Proof.
  eexists. split; [vm_compute; reflexivity |].
  split; [reflexivity | split; [vm_compute; reflexivity | reflexivity]].
Qed.

(** C3. The code does not report a forecast without periods as an error:
    when the upstream delivers an empty sequence of periods, line 127 indexes
    the empty slice, [getForecast] panics and the handler with it, so that no
    response is written (nothing is returned, no error is logged). *)
Theorem empty_forecast_panics {W : Type} (env : Env W) (query : Values)
    (lat lon : float64) (s s' : state W) (fr : ForecastResponse) :
  Strconv.ParseFloat (Http.Get query "lat") = (lat, None) ->
  Strconv.ParseFloat (Http.Get query "lon") = (lon, None) ->
  fetchForecast env lat lon s = (Returned (inl fr), s') ->
  Periods fr = [] ->
  getForecast env lat lon s = (Panicked (IndexOutOfRange 0 0), s') /\
  weatherHandler env Http.fresh query s = (Panicked (IndexOutOfRange 0 0), s').
Proof.
  intros Hlat Hlon Hfetch Hnil.
  assert (Hrun : getForecast env lat lon s = (Panicked (IndexOutOfRange 0 0), s')).
  { rewrite getForecast_steps, Hfetch, Hnil. reflexivity. }
  split; [exact Hrun |].
  rewrite (weatherHandler_accepted env _ _ _ _ _ Hlat Hlon), Hrun. reflexivity.
Qed.

Lemma empty_forecast_panics_witness :
  getForecast Stub.empty Stub.latitude Stub.longitude (start 0%nat) =
    (Panicked (IndexOutOfRange 0 0), Stub.after_two_requests) /\
  weatherHandler Stub.empty Http.fresh Stub.query (start 0%nat) =
    (Panicked (IndexOutOfRange 0 0), Stub.after_two_requests).
Proof.
  apply (empty_forecast_panics Stub.empty Stub.query Stub.latitude Stub.longitude
           (start 0%nat) Stub.after_two_requests {| Periods := [] |}).
  - vm_compute; reflexivity.
  - vm_compute; reflexivity.
  - vm_compute; reflexivity.
  - reflexivity.
Defined.

(** ** The validation of the query *)

Lemma Http_Error_fresh (msg : string) (code : Z) :
  Http.status (Http.Error Http.fresh msg code) = Some code /\
  Http.wrote (Http.Error Http.fresh msg code) = [Http.Line msg].
Proof. split; reflexivity. Qed.

Lemma Get_absent (query : Values) (key : string) :
  present query key = false -> Http.Get query key = "".
Proof.
  unfold present, Http.Get. destruct (query !! key) as [[| x l] |]; congruence.
Qed.

(** a query is rejected, or both parameters parse *)
Lemma rejected_or_accepted (query : Values) :
  (exists msg, rejected query msg) \/
  (exists lat lon,
      Strconv.ParseFloat (Http.Get query "lat") = (lat, None) /\
      Strconv.ParseFloat (Http.Get query "lon") = (lon, None)).
Proof.
  destruct (String.eqb_spec (Http.Get query "lat") "") as [Hlat | Hlat].
  { left. eexists. apply rejected_missing. now left. }
  destruct (String.eqb_spec (Http.Get query "lon") "") as [Hlon | Hlon].
  { left. eexists. apply rejected_missing. now right. }
  destruct (parses (Http.Get query "lat")) eqn:Hp.
  2: { left. eexists. now apply rejected_latitude. }
  destruct (parses (Http.Get query "lon")) eqn:Hq.
  2: { left. eexists. now apply rejected_longitude. }
  right. unfold parses in Hp, Hq.
  destruct (Strconv.ParseFloat (Http.Get query "lat")) as [lat [e |]]; [discriminate |].
  destruct (Strconv.ParseFloat (Http.Get query "lon")) as [lon [e |]]; [discriminate |].
  now exists lat, lon.
Qed.

(** C4, as the code has it. A parameter that is absent and a parameter whose
    value is empty are treated alike: the handler answers 400 with the line
    [Missing lat or lon parameter] when [lat] or [lon] is absent or empty;
    otherwise 400 with [Invalid latitude] when [lat] does not parse as a
    float; otherwise 400 with [Invalid longitude] when [lon] does not. *)
Theorem validation_order {W : Type} (env : Env W) (query : Values) (msg : string)
    (s : state W) :
  rejected query msg ->
  exists w,
    weatherHandler env Http.fresh query s = (Returned w, s) /\
    Http.status w = Some 400 /\
    Http.wrote w = [Http.Line msg].
Proof.
  intros Hr. exists (Http.Error Http.fresh msg Http.StatusBadRequest).
  split; [now apply weatherHandler_rejected | apply Http_Error_fresh].
Qed.

(** [/weather?lat=abc&lon=-77.0365] *)
Lemma validation_order_witness :
  exists w,
    weatherHandler Stub.sunny Http.fresh {[ "lat" := ["abc"]; "lon" := [Stub.lon] ]}
      (start 0%nat) = (Returned w, start 0%nat) /\
    Http.status w = Some 400 /\
    Http.wrote w = [Http.Line "Invalid latitude"].
Proof.
  apply (validation_order Stub.sunny {[ "lat" := ["abc"]; "lon" := [Stub.lon] ]}
           "Invalid latitude" (start 0%nat)).
  apply rejected_latitude; [vm_compute; discriminate | vm_compute; discriminate |].
  vm_compute; reflexivity.
Defined.

(** C4, as stated, fails on [/weather?lat=&lon=1]: both parameters are there
    and [lat] does not parse as a float, yet the answer is not
    [Invalid latitude] but [Missing lat or lon parameter]. *)
Lemma empty_latitude_counts_as_missing :
  let query : Values := {[ "lat" := [""]; "lon" := ["1"] ]} in
  present query "lat" = true /\
  present query "lon" = true /\
  parses (Http.Get query "lat") = false /\
  weatherHandler Stub.sunny Http.fresh query (start 0%nat) =
    (Returned (Http.Error Http.fresh "Missing lat or lon parameter" 400), start 0%nat) /\
  Http.wrote (Http.Error Http.fresh "Missing lat or lon parameter" 400) <>
    [Http.Line "Invalid latitude"].
Proof.
  cbv zeta. split; [vm_compute; reflexivity |].
  split; [vm_compute; reflexivity |].
  split; [vm_compute; reflexivity |].
  split; [vm_compute; reflexivity |].
  vm_compute. discriminate.
Qed.

Example missing_longitude :
  weatherHandler Stub.sunny Http.fresh {[ "lat" := [Stub.lat] ]} (start 0%nat) =
    (Returned (Http.Error Http.fresh "Missing lat or lon parameter" 400), start 0%nat).
Proof. vm_compute; reflexivity. Qed.

Example invalid_longitude :
  weatherHandler Stub.sunny Http.fresh {[ "lat" := [Stub.lat]; "lon" := ["1e400"] ]}
    (start 0%nat) =
    (Returned (Http.Error Http.fresh "Invalid longitude" 400), start 0%nat).
Proof. vm_compute; reflexivity. Qed.

(** C10. A query whose [lat] or [lon] is missing or does not parse is
    answered with 400 and the run ends in the state it started in: no request
    has been given to [Do], so the resolver has not been called. *)
Theorem invalid_query_sends_nothing {W : Type} (env : Env W) (query : Values)
    (s : state W) :
  present query "lat" = false \/ present query "lon" = false \/
  parses (Http.Get query "lat") = false \/ parses (Http.Get query "lon") = false ->
  exists w s',
    weatherHandler env Http.fresh query s = (Returned w, s') /\
    Http.status w = Some 400 /\
    sent s' = sent s /\ world s' = world s.
Proof.
  intros Hbad.
  assert (Hr : exists msg, rejected query msg).
  { destruct (rejected_or_accepted query) as [Hr | (lat & lon & Hlat & Hlon)]; [exact Hr |].
    exfalso.
    pose proof (ParseFloat_nonempty _ _ Hlat) as Hlat'.
    pose proof (ParseFloat_nonempty _ _ Hlon) as Hlon'.
    unfold parses in Hbad. rewrite Hlat, Hlon in Hbad. simpl in Hbad.
    destruct Hbad as [Ha | [Ha | [Ha | Ha]]]; try discriminate;
      apply Get_absent in Ha; rewrite Ha in *; discriminate. }
  destruct Hr as [msg Hr].
  exists (Http.Error Http.fresh msg Http.StatusBadRequest), s.
  split; [now apply weatherHandler_rejected |].
  split; [reflexivity | split; reflexivity].
Qed.

(** [/weather?lat=38.8977]: nothing is sent *)
Lemma invalid_query_sends_nothing_witness :
  exists w s',
    weatherHandler Stub.sunny Http.fresh {[ "lat" := [Stub.lat] ]} (start 0%nat) =
      (Returned w, s') /\
    Http.status w = Some 400 /\
    sent s' = sent (start 0%nat) /\ world s' = world (start 0%nat).
Proof.
  apply (invalid_query_sends_nothing Stub.sunny {[ "lat" := [Stub.lat] ]} (start 0%nat)).
  right; left. vm_compute; reflexivity.
Defined.

(** ** The replies of the endpoint *)

(** C5. When the resolver returns an error, whatever it is, the handler
    answers 500 with the line [Failed to fetch forecast]; the error goes to
    the log, and the response is the same for every error. *)
Theorem resolver_error_reply {W : Type} (env : Env W) (query : Values)
    (lat lon : float64) (s s' : state W) (r : string * Z * string) (e : error) :
  Strconv.ParseFloat (Http.Get query "lat") = (lat, None) ->
  Strconv.ParseFloat (Http.Get query "lon") = (lon, None) ->
  getForecast env lat lon s = (Returned (r, Some e), s') ->
  exists w,
    weatherHandler env Http.fresh query s =
      (Returned w, {| world := world s'; sent := sent s';
                      logged := logged s' ++ [("Error fetching forecast:", e)] |}) /\
    w = Http.Error Http.fresh "Failed to fetch forecast" 500 /\
    Http.status w = Some 500 /\
    Http.wrote w = [Http.Line "Failed to fetch forecast"].
Proof.
  intros Hlat Hlon Hrun. eexists. split; [| split; [reflexivity | split; reflexivity]].
  rewrite (weatherHandler_accepted env _ _ _ _ _ Hlat Hlon), Hrun.
  destruct r as [[f t] c]. reflexivity.
Qed.

(** the points lookup is refused *)
Lemma resolver_error_reply_witness :
  exists w,
    weatherHandler Stub.refused Http.fresh Stub.query (start 0%nat) =
      (Returned w,
       {| world := world Stub.after_one_request; sent := sent Stub.after_one_request;
          logged := logged Stub.after_one_request ++
                    [("Error fetching forecast:", DoError "dial tcp: connection refused")] |}) /\
    w = Http.Error Http.fresh "Failed to fetch forecast" 500 /\
    Http.status w = Some 500 /\
    Http.wrote w = [Http.Line "Failed to fetch forecast"].
Proof.
  apply (resolver_error_reply Stub.refused Stub.query Stub.latitude Stub.longitude
           (start 0%nat) Stub.after_one_request ("", 0, "")
           (DoError "dial tcp: connection refused")).
  - vm_compute; reflexivity.
  - vm_compute; reflexivity.
  - vm_compute; reflexivity.
Defined.

(** C6. When the resolver succeeds with a forecast, a temperature and a
    classification, the handler answers 200 with the header
    [Content-Type: application/json] and the encoding of the object whose
    members are [forecast], [temperature] and [classification], in this
    order; the forecast is the short forecast of the period the resolver has
    selected and the temperature is the temperature of that period. *)
Theorem success_reply {W : Type} (env : Env W) (query : Values)
    (lat lon : float64) (s s' : state W) (f : string) (t : Z) (c : string) :
  Strconv.ParseFloat (Http.Get query "lat") = (lat, None) ->
  Strconv.ParseFloat (Http.Get query "lon") = (lon, None) ->
  getForecast env lat lon s = (Returned (f, t, c, None), s') ->
  (exists w,
      weatherHandler env Http.fresh query s = (Returned w, s') /\
      Http.status w = Some 200 /\
      Http.header w !! "Content-Type" = Some ["application/json"] /\
      Http.wrote w = [Http.Encoded (JObject [("forecast", JString f);
                                             ("temperature", JInt t);
                                             ("classification", JString c)])]) /\
  (exists fr p,
      fetchForecast env lat lon s = (Returned (inl fr), s') /\
      selected (Now_Format env (world s')) (Periods fr) = Some p /\
      f = ShortForecast p /\ t = Temperature p).
Proof.
  intros Hlat Hlon Hrun. split.
  - eexists. rewrite (weatherHandler_accepted env _ _ _ _ _ Hlat Hlon), Hrun.
    split; [reflexivity |]. split; [reflexivity |]. split; [| reflexivity].
    apply lookup_insert_eq.
  - rewrite getForecast_steps in Hrun.
    destruct (fetchForecast env lat lon s) as [[[fr | e] | p] s1] eqn:Hfetch;
      [| discriminate ..].
    destruct (selected (Now_Format env (world s1)) (Periods fr)) as [p |] eqn:Hp;
      [| discriminate].
    injection Hrun as <- <- _ <-. exists fr, p.
    split; [reflexivity | split; [exact Hp | split; reflexivity]].
Qed.

(** the scenario of the specification: one daytime period of today, 85 degrees *)
Lemma success_reply_witness :
  (exists w,
      weatherHandler Stub.sunny Http.fresh Stub.query (start 0%nat) =
        (Returned w, Stub.after_two_requests) /\
      Http.status w = Some 200 /\
      Http.header w !! "Content-Type" = Some ["application/json"] /\
      Http.wrote w = [Http.Encoded (JObject [("forecast", JString "Sunny");
                                             ("temperature", JInt 85);
                                             ("classification", JString "hot")])]) /\
  (exists fr p,
      fetchForecast Stub.sunny Stub.latitude Stub.longitude (start 0%nat) =
        (Returned (inl fr), Stub.after_two_requests) /\
      selected (Now_Format Stub.sunny (world Stub.after_two_requests)) (Periods fr) = Some p /\
      "Sunny" = ShortForecast p /\ 85 = Temperature p).
Proof.
  apply (success_reply Stub.sunny Stub.query Stub.latitude Stub.longitude
           (start 0%nat) Stub.after_two_requests "Sunny" 85 "hot").
  - vm_compute; reflexivity.
  - vm_compute; reflexivity.
  - vm_compute; reflexivity.
Defined.

(** C9. In every response with status 200 the classification is [classify]
    of the temperature of the same response: both come from the one period
    the resolver has selected, be it today's daytime period or, for want of
    one, the first period. *)
Theorem classification_matches_temperature {W : Type} (env : Env W) (query : Values)
    (s s' : state W) (w : Http.ResponseWriter) :
  weatherHandler env Http.fresh query s = (Returned w, s') ->
  Http.status w = Some 200 ->
  exists lat lon fr p,
    fetchForecast env lat lon s = (Returned (inl fr), s') /\
    selected (Now_Format env (world s')) (Periods fr) = Some p /\
    Http.wrote w =
      [Http.Encoded (JObject [("forecast", JString (ShortForecast p));
                              ("temperature", JInt (Temperature p));
                              ("classification", JString (classify (Temperature p)))])].
Proof.
  intros Hrun Hok.
  destruct (rejected_or_accepted query) as [[msg Hr] | (lat & lon & Hlat & Hlon)].
  { rewrite (weatherHandler_rejected env _ _ _ _ Hr) in Hrun.
    injection Hrun as <- _. discriminate. }
  rewrite (weatherHandler_accepted env _ _ _ _ _ Hlat Hlon), getForecast_steps in Hrun.
  destruct (fetchForecast env lat lon s) as [[[fr | e] | q] s1] eqn:Hfetch.
  - destruct (selected (Now_Format env (world s1)) (Periods fr)) as [p |] eqn:Hp;
      [| discriminate].
    injection Hrun as <- <-. exists lat, lon, fr, p.
    split; [exact Hfetch | split; [exact Hp | reflexivity]].
  - injection Hrun as <- _. discriminate.
  - discriminate.
Qed.

Lemma classification_matches_temperature_witness :
  exists lat lon fr p,
    fetchForecast Stub.stale lat lon (start 0%nat) =
      (Returned (inl fr), Stub.after_two_requests) /\
    selected (Now_Format Stub.stale (world Stub.after_two_requests)) (Periods fr) = Some p /\
    Http.wrote Stub.stale_reply =
      [Http.Encoded (JObject [("forecast", JString (ShortForecast p));
                              ("temperature", JInt (Temperature p));
                              ("classification", JString (classify (Temperature p)))])].
Proof.
  apply (classification_matches_temperature Stub.stale Stub.query (start 0%nat)
           Stub.after_two_requests Stub.stale_reply).
  - vm_compute; reflexivity.
  - reflexivity.
Defined.

(** ** The requests to the upstream *)

Lemma digit_char_is_digit (d : Z) : Bytes.is_digit (Bytes.digit_char d) = true.
Proof.
  unfold Bytes.digit_char.
  assert (H : 0 <= d mod 10 < 10) by (apply Z.mod_pos_bound; lia).
  assert (Hc : d mod 10 = 0 \/ d mod 10 = 1 \/ d mod 10 = 2 \/ d mod 10 = 3 \/
               d mod 10 = 4 \/ d mod 10 = 5 \/ d mod 10 = 6 \/ d mod 10 = 7 \/
               d mod 10 = 8 \/ d mod 10 = 9) by lia.
  repeat (destruct Hc as [-> | Hc]; [reflexivity |]). rewrite Hc. reflexivity.
Qed.

Lemma string_of_uint_digits (d : Decimal.uint) :
  Bytes.all_digits (NilEmpty.string_of_uint d) = true.
Proof. induction d; simpl; auto. Qed.

Lemma itoa_digits (n : Z) :
  Bytes.all_digits (Bytes.itoa n) = true /\ Bytes.itoa n <> "".
Proof.
  unfold Bytes.itoa, NilZero.string_of_uint.
  destruct (N.to_uint (Z.to_N n)) eqn:Hd;
    (split; [first [reflexivity | apply (string_of_uint_digits (_ u))] | discriminate]).
Qed.

Lemma int_point_frac4_digits (ds r : string) :
  Bytes.all_digits ds = true ->
  forall seen,
    Fmt.int_point_frac4 seen (ds ++ "." ++ r) =
    (seen || negb (String.eqb ds "")) && Fmt.frac4 r.
Proof.
  induction ds as [| c ds IH]; intros Hds seen.
  - simpl. now rewrite orb_false_r.
  - simpl in Hds. apply andb_prop in Hds as [Hc Hds].
    change (Fmt.int_point_frac4 seen (String c (ds ++ "." ++ r)) =
            (seen || negb (String.eqb (String c ds) "")) && Fmt.frac4 r).
    simpl. rewrite Hc, (IH Hds true). simpl. now rewrite orb_true_r.
Qed.

Lemma four_decimals_unsigned (c : ascii) (r : string) :
  Bytes.is_digit c = true ->
  Fmt.four_decimals (String c r) = Fmt.int_point_frac4 false (String c r).
Proof.
  intros Hc. unfold Fmt.four_decimals.
  destruct (Ascii.eqb_spec c "-") as [-> | _]; [discriminate | reflexivity].
Qed.

Lemma fixed4_four_decimals (neg : bool) (n : Z) :
  Fmt.four_decimals (Fmt.fixed4 neg n) = true.
Proof.
  destruct (itoa_digits (n / 10000)) as [Hds Hne].
  assert (Hbody : forall seen,
    Fmt.int_point_frac4 seen
      (Bytes.itoa (n / 10000) ++ "." ++
       String (Bytes.digit_char (n / 1000))
         (String (Bytes.digit_char (n / 100))
           (String (Bytes.digit_char (n / 10))
             (String (Bytes.digit_char n) EmptyString)))) = true).
  { intros seen. rewrite (int_point_frac4_digits _ _ Hds). unfold Fmt.frac4.
    rewrite !digit_char_is_digit.
    destruct (String.eqb_spec (Bytes.itoa (n / 10000)) ""); [contradiction |].
    simpl. now rewrite orb_true_r. }
  unfold Fmt.fixed4. destruct neg.
  - change (Fmt.int_point_frac4 false
              (Bytes.itoa (n / 10000) ++ "." ++
               String (Bytes.digit_char (n / 1000))
                 (String (Bytes.digit_char (n / 100))
                   (String (Bytes.digit_char (n / 10))
                     (String (Bytes.digit_char n) EmptyString)))) = true).
    apply Hbody.
  - change ("" ++ ?x)%string with x.
    destruct (Bytes.itoa (n / 10000)) as [| c ds] eqn:Hi; [contradiction |].
    simpl in Hds. apply andb_prop in Hds as [Hc _].
    specialize (Hbody false).
    change (String c ds ++ ?x)%string with (String c (ds ++ x)) in Hbody |- *.
    rewrite (four_decimals_unsigned _ _ Hc). exact Hbody.
Qed.

(** a finite float prints with four decimals *)
Lemma Sprintf_4f_finite (f : float64) :
  is_finite f = true -> Fmt.four_decimals (Fmt.Sprintf_4f f) = true.
Proof.
  destruct f as [neg | neg | | neg m e]; simpl; intros H; try discriminate;
    apply fixed4_four_decimals.
Qed.

Section Requests.

Context {W : Type}.
Variable env : Env W.

(** lines 88-89 and lines 104-105: the request, or the panic on [nil] *)
Lemma request_built (url : string) (s : state W) :
  Request_Header_Set (NewRequest env "GET" url) "User-Agent" "weather-service-example" s =
  if url_Parse_ok env url then (Returned (get_with_user_agent url), s)
  else (Panicked NilDereference, s).
Proof.
  unfold NewRequest. destruct (url_Parse_ok env url); reflexivity.
Qed.

Lemma getForecast_state (lat lon : float64) (s : state W) :
  snd (getForecast env lat lon s) = snd (fetchForecast env lat lon s).
Proof.
  rewrite getForecast_steps.
  destruct (fetchForecast env lat lon s) as [[[fr | e] | p] s']; try reflexivity.
  destruct (selected _ _); reflexivity.
Qed.

(** The requests of a run: the points lookup, then the request for the
    forecast URL that the points response holds; none when [url.Parse]
    refuses the points URL. *)
Lemma fetchForecast_sent (lat lon : float64) (s : state W) :
  exists new,
    sent (snd (fetchForecast env lat lon s)) = (sent s ++ new)%list /\
    (new = [] /\ url_Parse_ok env (pointsURL lat lon) = false \/
     new = [get_with_user_agent (pointsURL lat lon)] \/
     exists resp w1 pr,
       client_Do env (get_with_user_agent (pointsURL lat lon)) (world s) = (inl resp, w1) /\
       Json.Unmarshal_PointsResponse (Http.ReadAll resp) = (pr, None) /\
       new = [get_with_user_agent (pointsURL lat lon);
              get_with_user_agent (Forecast_url pr)]).
Proof.
  unfold fetchForecast, bind. rewrite request_built.
  destruct (url_Parse_ok env (pointsURL lat lon)).
  2: { exists []. split; [symmetry; apply app_nil_r | now left]. }
  unfold Do at 1.
  destruct (client_Do env (get_with_user_agent (pointsURL lat lon)) (world s))
    as [[resp | err] w1].
  2: { eexists. split; [reflexivity | right; now left]. }
  destruct (Json.Unmarshal_PointsResponse (Http.ReadAll resp)) as [pr [e |]] eqn:Hpr.
  { eexists. split; [reflexivity | right; now left]. }
  rewrite request_built.
  destruct (url_Parse_ok env (Forecast_url pr)).
  2: { eexists. split; [reflexivity | right; now left]. }
  unfold Do. cbn [world sent logged].
  destruct (client_Do env (get_with_user_agent (Forecast_url pr)) w1)
    as [[resp2 | err2] w2].
  2: { eexists. split; [cbn; rewrite <- app_assoc; reflexivity |].
       right; right. exists resp, w1, pr. auto. }
  destruct (Json.Unmarshal_ForecastResponse (Http.ReadAll resp2)) as [fr [e |]];
    (eexists; split; [cbn; rewrite <- app_assoc; reflexivity |];
     right; right; exists resp, w1, pr; auto).
Qed.

Lemma get_with_user_agent_header (url : string) :
  Http.Method (get_with_user_agent url) = "GET" /\
  Http.URL (get_with_user_agent url) = url /\
  Http.Header_ (get_with_user_agent url) !! "User-Agent" = Some ["weather-service-example"].
Proof.
  split; [reflexivity | split; [reflexivity |]].
  unfold get_with_user_agent, Http.Set_. cbn. apply lookup_insert_eq.
Qed.

End Requests.

(** *** The digits that [%.4f] prints *)

Lemma digits_value_app (a b : string) (acc : Z) :
  digits_value acc (a ++ b) = digits_value (digits_value acc a) b.
Proof.
  revert acc. induction a as [| x a IHa]; intros acc; [reflexivity |].
  change (String x a ++ b)%string with (String x (a ++ b)).
  cbn [digits_value]. destruct (Bytes.is_digit x); apply IHa.
Qed.

Lemma digits_value_of_uint_acc (d : Decimal.uint) (acc : positive) :
  digits_value (Z.pos acc) (NilEmpty.string_of_uint d) = Z.pos (Pos.of_uint_acc d acc).
Proof.
  revert acc. induction d; intros acc; cbn [NilEmpty.string_of_uint Pos.of_uint_acc];
    [reflexivity | ..];
    cbn [digits_value];
    match goal with
    | |- context [Bytes.is_digit ?c] => change (Bytes.is_digit c) with true
    end;
    cbv iota; rewrite <- IHd; f_equal;
    match goal with
    | |- context [Bytes.code ?c] =>
        let v := eval vm_compute in (Bytes.code c) in change (Bytes.code c) with v
    end; lia.
Qed.

Lemma digits_value_of_uint (d : Decimal.uint) :
  digits_value 0 (NilEmpty.string_of_uint d) = Z.of_N (Pos.of_uint d).
Proof.
  induction d; cbn [NilEmpty.string_of_uint Pos.of_uint]; [reflexivity | ..];
    cbn [digits_value];
    match goal with
    | |- context [Bytes.is_digit ?c] => change (Bytes.is_digit c) with true
    end;
    cbv iota; [exact IHd | ..];
    cbn [Z.of_N]; rewrite <- digits_value_of_uint_acc; f_equal.
Qed.

(** [itoa] writes the number it is given *)
Lemma digits_value_itoa (n : Z) :
  0 <= n -> digits_value 0 (Bytes.itoa n) = n.
Proof.
  intros Hn. unfold Bytes.itoa, NilZero.string_of_uint.
  pose proof (DecimalN.Unsigned.of_to (Z.to_N n)) as Hof. unfold N.of_uint in Hof.
  destruct (N.to_uint (Z.to_N n)) eqn:Hd;
    try (rewrite <- Hd, (digits_value_of_uint (N.to_uint (Z.to_N n))), Hd, Hof; lia).
  change (0%N = Z.to_N n) in Hof. change (0 = n). lia.
Qed.

Lemma nzhead_no_leading_zero (d : Decimal.uint) :
  Decimal.nzhead d = Decimal.Nil \/
  String.prefix "0" (NilEmpty.string_of_uint (Decimal.nzhead d)) = false /\
  NilZero.string_of_uint (Decimal.nzhead d) = NilEmpty.string_of_uint (Decimal.nzhead d).
Proof.
  induction d; cbn [Decimal.nzhead]; [now left | exact IHd | ..];
    right; split; reflexivity.
Qed.

Lemma itoa_no_leading_zero (n : Z) :
  Bytes.itoa n = "0" \/ String.prefix "0" (Bytes.itoa n) = false.
Proof.
  unfold Bytes.itoa. destruct (Z.to_N n) as [| p]; [now left |].
  change (N.to_uint (N.pos p)) with (Pos.to_uint p).
  pose proof (DecimalPos.Unsigned.to_of (Pos.to_uint p)) as Hnorm.
  rewrite DecimalPos.Unsigned.of_to in Hnorm.
  change (N.to_uint (N.pos p)) with (Pos.to_uint p) in Hnorm.
  rewrite Hnorm. unfold Decimal.unorm.
  destruct (nzhead_no_leading_zero (Pos.to_uint p)) as [-> | [Hz Hs]]; [now left |].
  destruct (Decimal.nzhead (Pos.to_uint p)); [now left | ..];
    right; rewrite Hs; exact Hz.
Qed.

Lemma code_digit_char (d : Z) : Bytes.code (Bytes.digit_char d) = 48 + d mod 10.
Proof.
  pose proof (Z.mod_pos_bound d 10 ltac:(lia)) as Hd.
  unfold Bytes.code, Bytes.digit_char.
  rewrite N_ascii_embedding by lia. lia.
Qed.

(** the digits of [fixed4 neg k] are those of [k] *)
Lemma digits_value_fixed4 (k : Z) :
  0 <= k ->
  digits_value 0
    (Bytes.itoa (k / 10000) ++
     String (Bytes.digit_char (k / 1000))
       (String (Bytes.digit_char (k / 100))
         (String (Bytes.digit_char (k / 10))
           (String (Bytes.digit_char k) EmptyString)))) = k.
Proof.
  intros Hk. rewrite digits_value_app, digits_value_itoa by (apply Z.div_pos; lia).
  cbn [digits_value]. rewrite !digit_char_is_digit, !code_digit_char.
  Z.to_euclidean_division_equations. lia.
Qed.

Lemma round_half_even_nearest (num den : Z) :
  0 <= num -> 0 < den ->
  0 <= Fmt.round_half_even num den /\
  2 * Z.abs (Fmt.round_half_even num den * den - num) <= den /\
  (2 * Z.abs (Fmt.round_half_even num den * den - num) = den ->
   Z.even (Fmt.round_half_even num den) = true).
Proof.
  intros Hn Hd. unfold Fmt.round_half_even.
  pose proof (Z.div_mod num den ltac:(lia)) as Hdm.
  pose proof (Z.mod_pos_bound num den Hd) as Hr.
  pose proof (Z.div_pos num den Hn Hd) as Hq.
  set (q := num / den) in *. set (r := num mod den) in *.
  destruct (Z.ltb_spec den (2 * r)) as [Hlt | Hge]; cbn [orb].
  - split; [lia |]. replace ((q + 1) * den - num) with (den - r) by lia.
    split; lia.
  - destruct (Z.eqb_spec den (2 * r)) as [Heq | Hne]; cbn [andb].
    + destruct (Z.odd q) eqn:Hodd.
      * split; [lia |]. replace ((q + 1) * den - num) with (den - r) by lia.
        split; [lia |]. intros _.
        rewrite Z.add_1_r, Z.even_succ. exact Hodd.
      * split; [lia |]. replace (q * den - num) with (- r) by lia.
        split; [lia |]. intros _. now rewrite <- Z.negb_odd, Hodd.
    + split; [lia |]. replace (q * den - num) with (- r) by lia.
      split; lia.
Qed.

Lemma ten_thousandths_nearest (neg : bool) (m : positive) (e : Z) :
  0 <= Fmt.ten_thousandths m e /\
  nearest_ten_thousandth (magnitude (S754_finite neg m e)) (Fmt.ten_thousandths m e).
Proof.
  unfold Fmt.ten_thousandths, nearest_ten_thousandth, magnitude.
  destruct (Z.leb_spec 0 e) as [He | He].
  - rewrite (Z.max_r 0 e), (Z.max_l 0 (- e)) by lia.
    assert (0 < 2 ^ e) by (apply Z.pow_pos_nonneg; lia).
    change (2 ^ 0) with 1. split; [nia |]. split; lia.
  - rewrite (Z.max_l 0 e), (Z.max_r 0 (- e)) by lia.
    change (2 ^ 0) with 1. rewrite Z.mul_1_r.
    assert (0 < 2 ^ (- e)) by (apply Z.pow_pos_nonneg; lia).
    destruct (round_half_even_nearest (Z.pos m * 10000) (2 ^ (- e))) as (H0 & H1 & H2);
      [lia | lia |].
    split; [exact H0 | split; [exact H1 | exact H2]].
Qed.

(** [%.4f] prints a coordinate as the specification asks *)
Lemma Sprintf_4f_formatted (f : float64) : formatted f (Fmt.Sprintf_4f f).
Proof.
  assert (Hfixed : forall neg k x,
            0 <= k -> nearest_ten_thousandth x k ->
            exists int frac : string,
              Fmt.fixed4 neg k = decimal neg int frac /\
              Bytes.all_digits int = true /\ int <> "" /\
              (int = "0" \/ String.prefix "0" int = false) /\
              Bytes.all_digits frac = true /\ String.length frac = 4%nat /\
              nearest_ten_thousandth x (digits_value 0 (int ++ frac))).
  { intros neg k x Hk Hx.
    exists (Bytes.itoa (k / 10000)),
      (String (Bytes.digit_char (k / 1000))
         (String (Bytes.digit_char (k / 100))
           (String (Bytes.digit_char (k / 10))
             (String (Bytes.digit_char k) EmptyString)))).
    destruct (itoa_digits (k / 10000)) as [Hds Hne].
    split; [reflexivity |]. split; [exact Hds |]. split; [exact Hne |].
    split; [apply itoa_no_leading_zero |].
    split; [cbn [Bytes.all_digits]; now rewrite !digit_char_is_digit |].
    split; [reflexivity |].
    now rewrite digits_value_fixed4. }
  destruct f as [neg | neg | | neg m e]; cbn [formatted Fmt.Sprintf_4f];
    try reflexivity.
  - apply (Hfixed neg 0 (magnitude (S754_zero neg))); [lia |].
    cbn. split; lia.
  - destruct (ten_thousandths_nearest neg m e) as [Hk Hn].
    apply (Hfixed neg _ _ Hk Hn).
Qed.

(** *** One text only is the coordinate to four decimals *)

Lemma nearest_ten_thousandth_unique (num den k1 k2 : Z) :
  0 < den ->
  nearest_ten_thousandth (num, den) k1 ->
  nearest_ten_thousandth (num, den) k2 ->
  k1 = k2.
Proof.
  unfold nearest_ten_thousandth. intros Hden [H1 E1] [H2 E2].
  assert (Hadj : forall a b, a < b ->
            2 * Z.abs (a * den - num * 10000) <= den ->
            2 * Z.abs (b * den - num * 10000) <= den ->
            b = a + 1 /\ 2 * Z.abs (a * den - num * 10000) = den /\
            2 * Z.abs (b * den - num * 10000) = den).
  { intros a b Hab Ha Hb.
    assert (den <= b * den - a * den) by nia.
    assert (b * den - a * den = den) by lia.
    split; [nia | lia]. }
  assert (Hodd : forall a, Z.even a = true -> Z.even (a + 1) = true -> False).
  { intros a Ha Hb. rewrite Z.add_1_r, Z.even_succ, <- Z.negb_even, Ha in Hb.
    discriminate Hb. }
  destruct (Z.lt_trichotomy k1 k2) as [Hlt | [Heq | Hgt]]; [| exact Heq |].
  - destruct (Hadj _ _ Hlt H1 H2) as (-> & T1 & T2).
    destruct (Hodd k1 (E1 T1) (E2 T2)).
  - destruct (Hadj _ _ Hgt H2 H1) as (-> & T2 & T1).
    destruct (Hodd k2 (E2 T2) (E1 T1)).
Qed.

Lemma magnitude_denominator (f : float64) : 0 < snd (magnitude f).
Proof.
  destruct f as [neg | neg | | neg m e]; cbn [magnitude snd];
    first [lia | apply Z.pow_pos_nonneg; lia].
Qed.

Lemma digits_value_split (s : string) :
  Bytes.all_digits s = true ->
  forall acc,
    digits_value acc s = acc * 10 ^ Z.of_nat (String.length s) + digits_value 0 s /\
    0 <= digits_value 0 s < 10 ^ Z.of_nat (String.length s).
Proof.
  induction s as [| c s IHs]; intros Hs acc.
  - cbn. lia.
  - cbn [Bytes.all_digits] in Hs. apply andb_prop in Hs as [Hc Hs].
    cbn [digits_value String.length]. rewrite Hc.
    assert (Hd : 0 <= Bytes.code c - 48 <= 9).
    { unfold Bytes.is_digit, Bytes.between in Hc. apply andb_prop in Hc as [Hlo Hhi].
      apply Z.leb_le in Hlo, Hhi.
      change (Bytes.code "0") with 48 in Hlo. change (Bytes.code "9") with 57 in Hhi. lia. }
    destruct (IHs Hs (acc * 10 + (Bytes.code c - 48))) as [E1 _].
    destruct (IHs Hs (0 * 10 + (Bytes.code c - 48))) as [E2 B].
    rewrite Nat2Z.inj_succ, Z.pow_succ_r by lia.
    rewrite E1, E2. split; nia.
Qed.

Lemma code_inj (c d : ascii) : Bytes.code c = Bytes.code d -> c = d.
Proof.
  unfold Bytes.code. intros H. apply N2Z.inj in H.
  rewrite <- (ascii_N_embedding c), <- (ascii_N_embedding d). now rewrite H.
Qed.

(** numerals of one length that denote one number are one numeral *)
Lemma digits_value_inj (a : string) :
  forall b,
    Bytes.all_digits a = true -> Bytes.all_digits b = true ->
    String.length a = String.length b ->
    digits_value 0 a = digits_value 0 b ->
    a = b.
Proof.
  induction a as [| c a IHa]; intros [| d b] Ha Hb Hlen Hv; try discriminate Hlen.
  - reflexivity.
  - injection Hlen as Hlen.
    cbn [Bytes.all_digits] in Ha, Hb.
    apply andb_prop in Ha as [Hc Ha]. apply andb_prop in Hb as [Hd Hb].
    cbn [digits_value] in Hv. rewrite Hc, Hd in Hv.
    destruct (digits_value_split a Ha (0 * 10 + (Bytes.code c - 48))) as [E1 _].
    destruct (digits_value_split a Ha 0) as [_ B1].
    destruct (digits_value_split b Hb (0 * 10 + (Bytes.code d - 48))) as [E2 _].
    destruct (digits_value_split b Hb 0) as [_ B2].
    rewrite E1, E2, <- Hlen in Hv. rewrite <- Hlen in B2.
    assert (Hcd : Bytes.code c = Bytes.code d) by nia.
    assert (Hab : digits_value 0 a = digits_value 0 b) by (rewrite Hcd in Hv; lia).
    f_equal; [now apply code_inj | now apply IHa].
Qed.

(** a numeral without a leading zero is as long as its number asks *)
Lemma leading_digit_bound (c : ascii) (r : string) :
  Bytes.all_digits (String c r) = true ->
  String.prefix "0" (String c r) = false ->
  10 ^ Z.of_nat (String.length r) <= digits_value 0 (String c r)
    < 10 ^ Z.of_nat (String.length (String c r)).
Proof.
  intros Hall Hz.
  destruct (digits_value_split _ Hall 0) as [_ B].
  split; [| apply B].
  cbn [Bytes.all_digits] in Hall. apply andb_prop in Hall as [Hc Hr].
  cbn [digits_value]. rewrite Hc.
  destruct (digits_value_split r Hr (0 * 10 + (Bytes.code c - 48))) as [E _].
  destruct (digits_value_split r Hr 0) as [_ B0].
  rewrite E.
  assert (Hne : Bytes.code c <> 48).
  { intros Heq. assert (c = "0"%char) by (apply code_inj; exact Heq). subst c.
    destruct r; discriminate Hz. }
  assert (Hd : 48 <= Bytes.code c).
  { unfold Bytes.is_digit, Bytes.between in Hc. apply andb_prop in Hc as [Hlo _].
    apply Z.leb_le in Hlo. exact Hlo. }
  nia.
Qed.

Lemma integer_part_inj (a b : string) :
  Bytes.all_digits a = true -> Bytes.all_digits b = true ->
  a <> "" -> b <> "" ->
  a = "0" \/ String.prefix "0" a = false ->
  b = "0" \/ String.prefix "0" b = false ->
  digits_value 0 a = digits_value 0 b ->
  a = b.
Proof.
  intros Ha Hb Hane Hbne Hca Hcb Hv.
  destruct a as [| c a]; [contradiction |]. destruct b as [| d b]; [contradiction |].
  destruct Hca as [Hca | Hca], Hcb as [Hcb | Hcb].
  - congruence.
  - pose proof (leading_digit_bound d b Hb Hcb) as [Hlo _].
    assert (0 < 10 ^ Z.of_nat (String.length b)) by (apply Z.pow_pos_nonneg; lia).
    rewrite Hca in Hv. change (digits_value 0 "0") with 0 in Hv. lia.
  - pose proof (leading_digit_bound c a Ha Hca) as [Hlo _].
    assert (0 < 10 ^ Z.of_nat (String.length a)) by (apply Z.pow_pos_nonneg; lia).
    rewrite Hcb in Hv. change (digits_value 0 "0") with 0 in Hv. lia.
  - pose proof (leading_digit_bound c a Ha Hca) as [Hlo1 Hhi1].
    pose proof (leading_digit_bound d b Hb Hcb) as [Hlo2 Hhi2].
    cbn [String.length] in Hhi1, Hhi2. rewrite Hv in Hlo1, Hhi1.
    assert (Hlen : String.length a = String.length b).
    { destruct (Nat.lt_trichotomy (String.length a) (String.length b)) as [Hl | [He | Hl]];
        [| exact He |].
      - assert (10 ^ Z.of_nat (S (String.length a)) <= 10 ^ Z.of_nat (String.length b))
          by (apply Z.pow_le_mono_r; lia).
        lia.
      - assert (10 ^ Z.of_nat (S (String.length b)) <= 10 ^ Z.of_nat (String.length a))
          by (apply Z.pow_le_mono_r; lia).
        lia. }
    apply digits_value_inj; [exact Ha | exact Hb | | exact Hv].
    cbn [String.length]. now rewrite Hlen.
Qed.

Lemma formatted_unique (f : float64) (a b : string) :
  formatted f a -> formatted f b -> a = b.
Proof.
  assert (Hfin : to_four_decimals f a -> to_four_decimals f b -> a = b).
  { intros (i1 & f1 & -> & Hi1 & Hn1 & Hc1 & Hf1 & Hl1 & Hk1)
           (i2 & f2 & -> & Hi2 & Hn2 & Hc2 & Hf2 & Hl2 & Hk2).
    pose proof (magnitude_denominator f) as Hden.
    destruct (magnitude f) as [num den]. cbn [snd] in Hden.
    pose proof (nearest_ten_thousandth_unique _ _ _ _ Hden Hk1 Hk2) as Hk.
    rewrite !digits_value_app in Hk.
    destruct (digits_value_split f1 Hf1 (digits_value 0 i1)) as [E1 _].
    destruct (digits_value_split f1 Hf1 0) as [_ B1].
    destruct (digits_value_split f2 Hf2 (digits_value 0 i2)) as [E2 _].
    destruct (digits_value_split f2 Hf2 0) as [_ B2].
    rewrite E1, E2 in Hk. rewrite Hl1 in *. rewrite Hl2 in *.
    change (10 ^ Z.of_nat 4) with 10000 in *.
    assert (Hi : digits_value 0 i1 = digits_value 0 i2) by lia.
    assert (Hf : digits_value 0 f1 = digits_value 0 f2) by lia.
    rewrite (integer_part_inj i1 i2 Hi1 Hi2 Hn1 Hn2 Hc1 Hc2 Hi).
    rewrite (digits_value_inj f1 f2 Hf1 Hf2 ltac:(congruence) Hf).
    reflexivity. }
  destruct f as [neg | neg | | neg m e]; cbn [formatted]; try exact Hfin; congruence.
Qed.

(** C7, as the code has it. For every latitude and longitude the points
    URL is [https://api.weather.gov/points/] followed by the two
    coordinates with a comma between them. A finite coordinate is written
    to exactly four decimals: its sign, an integer part without a leading
    zero, a point and four digits, and the number so written is the multiple
    of 10^-4 nearest to the coordinate (the even one of two equally near). A
    NaN is written [NaN] and an infinity [+Inf] or [-Inf], and only these
    lack the four decimals. The requests that [getForecast] gives to [Do]
    are [GET] requests, the first one to that URL, the second one to the
    forecast URL of the points response, and each carries the header
    [User-Agent: weather-service-example], which is not empty. *)
Theorem points_url_and_user_agent {W : Type} (env : Env W) (lat lon : float64)
    (s : state W) :
  (exists a b : string,
      pointsURL lat lon = "https://api.weather.gov/points/" ++ a ++ "," ++ b /\
      formatted lat a /\ formatted lon b /\
      (forall t, formatted lat t -> t = a) /\
      (forall t, formatted lon t -> t = b) /\
      Fmt.four_decimals a = is_finite lat /\
      Fmt.four_decimals b = is_finite lon) /\
  (exists new,
      sent (snd (getForecast env lat lon s)) = (sent s ++ new)%list /\
      (new = [] /\ url_Parse_ok env (pointsURL lat lon) = false \/
       new = [get_with_user_agent (pointsURL lat lon)] \/
       exists resp w1 pr,
         client_Do env (get_with_user_agent (pointsURL lat lon)) (world s) = (inl resp, w1) /\
         Json.Unmarshal_PointsResponse (Http.ReadAll resp) = (pr, None) /\
         new = [get_with_user_agent (pointsURL lat lon);
                get_with_user_agent (Forecast_url pr)])) /\
  (forall url,
      Http.Method (get_with_user_agent url) = "GET" /\
      Http.URL (get_with_user_agent url) = url /\
      Http.Header_ (get_with_user_agent url) !! "User-Agent" =
        Some ["weather-service-example"]) /\
  "weather-service-example" <> "".
Proof.
  assert (Hshape : forall f, Fmt.four_decimals (Fmt.Sprintf_4f f) = is_finite f).
  { intros f. destruct (is_finite f) eqn:Hf; [now apply Sprintf_4f_finite |].
    destruct f as [neg | [] | | neg m e]; try discriminate Hf; reflexivity. }
  split.
  { exists (Fmt.Sprintf_4f lat), (Fmt.Sprintf_4f lon).
    split; [reflexivity |].
    split; [apply Sprintf_4f_formatted |].
    split; [apply Sprintf_4f_formatted |].
    split; [intros t Ht; exact (formatted_unique lat _ _ Ht (Sprintf_4f_formatted lat)) |].
    split; [intros t Ht; exact (formatted_unique lon _ _ Ht (Sprintf_4f_formatted lon)) |].
    split; apply Hshape. }
  split; [rewrite getForecast_state; apply fetchForecast_sent |].
  split; [apply get_with_user_agent_header | discriminate].
Qed.

Lemma points_url_and_user_agent_witness :
  (exists a b : string,
      pointsURL Stub.latitude Stub.longitude =
        "https://api.weather.gov/points/" ++ a ++ "," ++ b /\
      formatted Stub.latitude a /\ formatted Stub.longitude b /\
      (forall t, formatted Stub.latitude t -> t = a) /\
      (forall t, formatted Stub.longitude t -> t = b) /\
      Fmt.four_decimals a = is_finite Stub.latitude /\
      Fmt.four_decimals b = is_finite Stub.longitude) /\
  (exists new,
      sent (snd (getForecast Stub.sunny Stub.latitude Stub.longitude (start 0%nat))) =
        (sent (start 0%nat) ++ new)%list /\
      (new = [] /\ url_Parse_ok Stub.sunny (pointsURL Stub.latitude Stub.longitude) = false \/
       new = [get_with_user_agent (pointsURL Stub.latitude Stub.longitude)] \/
       exists resp w1 pr,
         client_Do Stub.sunny (get_with_user_agent (pointsURL Stub.latitude Stub.longitude))
           (world (start 0%nat)) = (inl resp, w1) /\
         Json.Unmarshal_PointsResponse (Http.ReadAll resp) = (pr, None) /\
         new = [get_with_user_agent (pointsURL Stub.latitude Stub.longitude);
                get_with_user_agent (Forecast_url pr)])) /\
  (forall url,
      Http.Method (get_with_user_agent url) = "GET" /\
      Http.URL (get_with_user_agent url) = url /\
      Http.Header_ (get_with_user_agent url) !! "User-Agent" =
        Some ["weather-service-example"]) /\
  "weather-service-example" <> "".
Proof.
  exact (points_url_and_user_agent Stub.sunny Stub.latitude Stub.longitude (start 0%nat)).
Defined.

Example points_url_of_the_stub :
  pointsURL Stub.latitude Stub.longitude = "https://api.weather.gov/points/38.8977,-77.0365".
Proof. vm_compute; reflexivity. Qed.

(** C7, as stated, fails on [/weather?lat=NaN&lon=Inf]: both parameters parse,
    and the points URL holds [NaN] and [+Inf], which have no decimals. *)
Lemma not_a_number_has_no_decimals :
  Strconv.ParseFloat "NaN" = (NaN, None) /\
  Strconv.ParseFloat "Inf" = (Inf false, None) /\
  Fmt.four_decimals (Fmt.Sprintf_4f NaN) = false /\
  Fmt.four_decimals (Fmt.Sprintf_4f (Inf false)) = false /\
  pointsURL NaN (Inf false) = "https://api.weather.gov/points/NaN,+Inf" /\
  sent (snd (weatherHandler Stub.sunny Http.fresh {[ "lat" := ["NaN"]; "lon" := ["Inf"] ]}
               (start 0%nat))) =
    [get_with_user_agent "https://api.weather.gov/points/NaN,+Inf"].
Proof. repeat (split; [vm_compute; reflexivity |]). vm_compute; reflexivity. Qed.

(** ** The errors of the resolver *)

Section Unmarshal.
Import Json.

Lemma saveError_no_syntax_error (a b : option error) :
  no_syntax_error a -> no_syntax_error b -> no_syntax_error (saveError a b).
Proof. destruct a as [[] |]; simpl; auto. Qed.

Lemma into_string_no_syntax_error (target : string) (v : json) :
  no_syntax_error (snd (into_string target v)).
Proof. destruct v; exact I. Qed.

Lemma into_bool_no_syntax_error (target : bool) (v : json) :
  no_syntax_error (snd (into_bool target v)).
Proof. destruct v; exact I. Qed.

Lemma into_int_no_syntax_error (target : Z) (v : json) :
  no_syntax_error (snd (into_int target v)).
Proof.
  destruct v; try exact I. simpl.
  destruct ((- 2 ^ 63 <=? n) && (n <? 2 ^ 63)); exact I.
Qed.

Lemma into_fields_no_syntax_error {A : Type}
    (field : string -> A -> json -> A * option error) :
  (forall key target v, no_syntax_error (snd (field key target v))) ->
  forall members target saved,
    no_syntax_error saved ->
    no_syntax_error (snd (into_fields field target saved members)).
Proof.
  intros Hfield members.
  induction members as [| [key v] rest IH]; intros target saved Hsaved; simpl.
  - exact Hsaved.
  - specialize (Hfield key target v).
    destruct (field key target v) as [target' e]. apply IH.
    now apply saveError_no_syntax_error.
Qed.

Lemma into_struct_no_syntax_error {A : Type}
    (field : string -> A -> json -> A * option error) :
  (forall key target v, no_syntax_error (snd (field key target v))) ->
  forall target v, no_syntax_error (snd (into_struct field target v)).
Proof.
  intros Hfield target v. destruct v; try exact I.
  simpl. now apply into_fields_no_syntax_error.
Qed.

Lemma Period_field_no_syntax_error (key : string) (p : Period) (v : json) :
  no_syntax_error (snd (Period_field key p v)).
Proof.
  unfold Period_field.
  repeat match goal with
         | |- context [if ?c then _ else _] => destruct c
         end;
    try exact I.
  - pose proof (into_string_no_syntax_error (Name p) v) as H.
    destruct (into_string (Name p) v); exact H.
  - pose proof (into_string_no_syntax_error (StartTime p) v) as H.
    destruct (into_string (StartTime p) v); exact H.
  - pose proof (into_int_no_syntax_error (Temperature p) v) as H.
    destruct (into_int (Temperature p) v); exact H.
  - pose proof (into_string_no_syntax_error (TemperatureUnit p) v) as H.
    destruct (into_string (TemperatureUnit p) v); exact H.
  - pose proof (into_string_no_syntax_error (ShortForecast p) v) as H.
    destruct (into_string (ShortForecast p) v); exact H.
  - pose proof (into_bool_no_syntax_error (IsDaytime p) v) as H.
    destruct (into_bool (IsDaytime p) v); exact H.
Qed.

Lemma into_elements_no_syntax_error (items : list json) :
  forall array saved,
    no_syntax_error saved ->
    no_syntax_error (snd (into_elements array saved items)).
Proof.
  induction items as [| v rest IH]; intros array saved Hsaved; simpl.
  - exact Hsaved.
  - pose proof (into_struct_no_syntax_error Period_field Period_field_no_syntax_error
                  (hd zero_Period array) v) as Hp.
    destruct (into_struct Period_field (hd zero_Period array) v) as [p e].
    specialize (IH (tl array) (saveError saved e)
                   (saveError_no_syntax_error _ _ Hsaved Hp)).
    destruct (into_elements (tl array) (saveError saved e) rest) as [[ps spare] saved'].
    exact IH.
Qed.

Lemma into_slice_no_syntax_error (target : slice) (v : json) :
  no_syntax_error (snd (into_slice target v)).
Proof.
  destruct v as [| | | | | items |]; try exact I.
  destruct items as [| v rest]; [exact I |].
  unfold into_slice.
  pose proof (into_elements_no_syntax_error (v :: rest)
                (elems target ++ spare target) None I) as H.
  destruct (into_elements (elems target ++ spare target) None (v :: rest))
    as [[ps sp] e].
  exact H.
Qed.

Lemma ForecastResponse_field_no_syntax_error (key : string) (target : slice) (v : json) :
  no_syntax_error (snd (ForecastResponse_field key target v)).
Proof.
  unfold ForecastResponse_field. destruct (names key "properties"); [| exact I].
  apply into_struct_no_syntax_error. intros k t x.
  unfold Properties_of_forecast_field. destruct (names k "periods"); [| exact I].
  apply into_slice_no_syntax_error.
Qed.

Lemma PointsResponse_field_no_syntax_error (key : string) (target : PointsResponse)
    (v : json) :
  no_syntax_error (snd (PointsResponse_field key target v)).
Proof.
  unfold PointsResponse_field. destruct (names key "properties"); [| exact I].
  apply into_struct_no_syntax_error. intros k t x.
  unfold Properties_of_points_field. destruct (names k "forecast"); [| exact I].
  pose proof (into_string_no_syntax_error (Forecast_url t) x) as H.
  destruct (into_string (Forecast_url t) x); exact H.
Qed.

(** [Unmarshal] refuses a body for one of two reasons: the body is no JSON
    text, or it is one and a value in it has not the type of its field. *)
Lemma Unmarshal_PointsResponse_error (b : body) (pr : PointsResponse) (e : error) :
  Unmarshal_PointsResponse b = (pr, Some e) ->
  b = NotJSON /\ e = SyntaxError \/
  exists v value, b = JSON v /\ e = UnmarshalTypeError value.
Proof.
  destruct b as [| v]; simpl; intros H.
  - left. split; [reflexivity | congruence].
  - right. exists v.
    pose proof (into_struct_no_syntax_error PointsResponse_field
                  PointsResponse_field_no_syntax_error {| Forecast_url := "" |} v) as Hn.
    rewrite H in Hn. destruct e as [| value]; [contradiction | eauto].
Qed.

Lemma Unmarshal_ForecastResponse_error (b : body) (fr : ForecastResponse) (e : error) :
  Unmarshal_ForecastResponse b = (fr, Some e) ->
  b = NotJSON /\ e = SyntaxError \/
  exists v value, b = JSON v /\ e = UnmarshalTypeError value.
Proof.
  destruct b as [| v]; simpl; intros H.
  - left. split; [reflexivity | congruence].
  - right. exists v.
    pose proof (into_struct_no_syntax_error ForecastResponse_field
                  ForecastResponse_field_no_syntax_error nil_slice v) as Hn.
    destruct (into_struct ForecastResponse_field nil_slice v) as [sl e'].
    injection H as _ ->. destruct e as [| value]; [contradiction | eauto].
Qed.

End Unmarshal.

Section Errors.

Context {W : Type}.
Variable env : Env W.

Lemma returns_error_upstream_failure (lat lon : float64) (s : state W) (e : error) :
  returns_error env lat lon s e -> upstream_failure env lat lon s e.
Proof.
  intros (r & s' & H). unfold getForecast, bind in H. rewrite request_built in H.
  destruct (url_Parse_ok env (pointsURL lat lon)) eqn:Hu; [| discriminate].
  unfold Do at 1 in H.
  destruct (client_Do env (get_with_user_agent (pointsURL lat lon)) (world s))
    as [[resp | msg] w1] eqn:Hdo.
  2: { injection H as _ <- _. eapply points_request_failed; eauto. }
  destruct (Json.Unmarshal_PointsResponse (Http.ReadAll resp)) as [pr [e1 |]] eqn:Hpr.
  { injection H as _ <- _. eapply points_body_refused; eauto. }
  rewrite request_built in H.
  destruct (url_Parse_ok env (Forecast_url pr)) eqn:Hu2; [| discriminate].
  unfold Do at 1 in H. cbn [world sent logged] in H.
  destruct (client_Do env (get_with_user_agent (Forecast_url pr)) w1)
    as [[resp2 | msg2] w2] eqn:Hdo2.
  2: { injection H as _ <- _. eapply forecast_request_failed; eauto. }
  destruct (Json.Unmarshal_ForecastResponse (Http.ReadAll resp2)) as [fr [e2 |]] eqn:Hfr.
  { injection H as _ <- _. eapply forecast_body_refused; eauto. }
  unfold Now, ret, throw in H.
  destruct (first_today _ (Periods fr)); [discriminate |].
  destruct (Periods fr); discriminate.
Qed.

Lemma upstream_failure_returns_error (lat lon : float64) (s : state W) (e : error) :
  upstream_failure env lat lon s e -> returns_error env lat lon s e.
Proof.
  intros [msg w1 Hu Hdo | resp w1 pr e1 Hu Hdo Hpr
          | resp w1 pr msg w2 Hu Hdo Hpr Hu2 Hdo2
          | resp w1 pr resp2 w2 fr e2 Hu Hdo Hpr Hu2 Hdo2 Hfr];
    unfold returns_error, getForecast, bind; rewrite request_built, Hu;
    unfold Do at 1; rewrite Hdo; try rewrite Hpr;
    try (rewrite request_built, Hu2; unfold Do at 1; cbn [world sent logged];
         rewrite Hdo2; try rewrite Hfr);
    eexists; eexists; reflexivity.
Qed.

(** neither the status code nor the error of [ReadAll] is looked at *)
Lemma getForecast_with_status (f : Http.Response -> Z * bool) (lat lon : float64)
    (s : state W) :
  getForecast (with_status f env) lat lon s = getForecast env lat lon s.
Proof.
  unfold getForecast, bind. rewrite !request_built. cbn [with_status url_Parse_ok].
  destruct (url_Parse_ok env (pointsURL lat lon)); [| reflexivity].
  unfold Do at 1 3. cbn [with_status client_Do].
  destruct (client_Do env (get_with_user_agent (pointsURL lat lon)) (world s))
    as [[resp | msg] w1]; [| reflexivity].
  cbn [Http.ReadAll].
  destruct (Json.Unmarshal_PointsResponse (Http.ReadAll resp)) as [pr [e1 |]];
    [reflexivity |].
  rewrite !request_built. cbn [with_status url_Parse_ok].
  destruct (url_Parse_ok env (Forecast_url pr)); [| reflexivity].
  unfold Do. cbn [with_status client_Do world sent logged].
  destruct (client_Do env (get_with_user_agent (Forecast_url pr)) w1)
    as [[resp2 | msg2] w2]; reflexivity.
Qed.

End Errors.

(** C8, as the code has it. [getForecast] returns an error exactly when
    [Do] refuses one of the two requests or [json.Unmarshal] refuses one of
    the two bodies; [Unmarshal] refuses a body that is no JSON text and also
    a JSON text in which a value has not the type of the field it belongs
    to; the status code of a response and a failure while its body is read
    change nothing. *)
Theorem resolver_errors {W : Type} (env : Env W) (lat lon : float64) (s : state W) :
  (forall e, returns_error env lat lon s e <-> upstream_failure env lat lon s e) /\
  (forall b pr e,
      Json.Unmarshal_PointsResponse b = (pr, Some e) ->
      b = NotJSON /\ e = Json.SyntaxError \/
      exists v value, b = JSON v /\ e = Json.UnmarshalTypeError value) /\
  (forall b fr e,
      Json.Unmarshal_ForecastResponse b = (fr, Some e) ->
      b = NotJSON /\ e = Json.SyntaxError \/
      exists v value, b = JSON v /\ e = Json.UnmarshalTypeError value) /\
  snd (Json.Unmarshal_PointsResponse NotJSON) = Some Json.SyntaxError /\
  snd (Json.Unmarshal_ForecastResponse NotJSON) = Some Json.SyntaxError /\
  (forall f, getForecast (with_status f env) lat lon s = getForecast env lat lon s).
Proof.
  split.
  { intros e. split;
      [apply returns_error_upstream_failure | apply upstream_failure_returns_error]. }
  split; [exact Unmarshal_PointsResponse_error |].
  split; [exact Unmarshal_ForecastResponse_error |].
  split; [reflexivity |]. split; [reflexivity |].
  intros f. apply getForecast_with_status.
Qed.

(** C8, as stated, fails on a forecast whose temperature is an object: both
    requests are answered, both bodies are JSON texts, and [getForecast]
    returns the error of [Unmarshal]. *)
Lemma well_formed_json_can_be_refused :
  client_Do Stub.quantities (get_with_user_agent Stub.points_url) 0%nat =
    (Stub.ok Stub.points_body, 1%nat) /\
  client_Do Stub.quantities (get_with_user_agent Stub.forecast_url) 1%nat =
    (Stub.ok (JSON (JObject [("properties",
                              JObject [("periods", JArray [Stub.quantity_json])])])), 2%nat) /\
  getForecast Stub.quantities Stub.latitude Stub.longitude (start 0%nat) =
    (Returned ("", 0, "", Some (JsonError (Json.UnmarshalTypeError "object"))),
     Stub.after_two_requests).
Proof.
  split; [vm_compute; reflexivity |].
  split; [vm_compute; reflexivity |].
  vm_compute; reflexivity.
Qed.

Example misshapen_points_are_refused :
  weatherHandler Stub.misshapen Http.fresh Stub.query (start 0%nat) =
    (Returned (Http.Error Http.fresh "Failed to fetch forecast" 500),
     {| world := 1%nat; sent := sent Stub.after_one_request;
        logged := [("Error fetching forecast:",
                    JsonError (Json.UnmarshalTypeError "number"))] |}).
Proof. vm_compute; reflexivity. Qed.

(** an error status and a failed read, with a body that decodes, are no error *)
Example error_status_is_no_error :
  getForecast
    (with_status (fun _ => (503, true)) Stub.sunny) Stub.latitude Stub.longitude
    (start 0%nat) =
    (Returned ("Sunny", 85, "hot", None), Stub.after_two_requests).
Proof. vm_compute; reflexivity. Qed.
(** * Further properties *)

(** ** The classifier *)

(** X5. The classification follows the temperature: a warmer reading is
    never classified colder. With [cold], [moderate], [hot] ranked 0, 1, 2,
    the rank of [classify] is monotone in the temperature and stays within
    these three classes. *)
Theorem classify_monotone (t1 t2 : Z) :
  t1 <= t2 ->
  rank (classify t1) <= rank (classify t2) /\
  0 <= rank (classify t1) <= 2.
Proof.
  intros Hle. unfold classify.
  destruct (Z.geb_spec t1 80), (Z.geb_spec t2 80),
           (Z.leb_spec t1 50), (Z.leb_spec t2 50);
    cbn; lia.
Qed.

Lemma classify_monotone_witness :
  rank (classify 50) <= rank (classify 51) /\
  0 <= rank (classify 50) <= 2.
Proof. apply (classify_monotone 50 51). lia. Defined.

Section Effects.

Context {W : Type}.
Variable env : Env W.

(** [getForecast] leaves the log as it is *)
Lemma fetchForecast_logged (lat lon : float64) (s : state W) :
  logged (snd (fetchForecast env lat lon s)) = logged s.
Proof.
  unfold fetchForecast, bind. rewrite request_built.
  destruct (url_Parse_ok env (pointsURL lat lon)); [| reflexivity].
  unfold Do at 1.
  destruct (client_Do env (get_with_user_agent (pointsURL lat lon)) (world s))
    as [[resp | err] w1]; [| reflexivity].
  destruct (Json.Unmarshal_PointsResponse (Http.ReadAll resp)) as [pr [e |]];
    [reflexivity |].
  rewrite request_built.
  destruct (url_Parse_ok env (Forecast_url pr)); [| reflexivity].
  unfold Do. cbn [world sent logged].
  destruct (client_Do env (get_with_user_agent (Forecast_url pr)) w1)
    as [[resp2 | err2] w2]; [| reflexivity].
  destruct (Json.Unmarshal_ForecastResponse (Http.ReadAll resp2)) as [fr [e |]];
    reflexivity.
Qed.

Lemma getForecast_logged (lat lon : float64) (s : state W) :
  logged (snd (getForecast env lat lon s)) = logged s.
Proof. rewrite getForecast_state. apply fetchForecast_logged. Qed.

(** a query is not both rejected and accepted *)
Lemma rejected_not_accepted (query : Values) (msg : string) (lat lon : float64) :
  rejected query msg ->
  Strconv.ParseFloat (Http.Get query "lat") = (lat, None) ->
  Strconv.ParseFloat (Http.Get query "lon") = (lon, None) ->
  False.
Proof.
  intros Hr Hlat Hlon.
  pose proof (ParseFloat_nonempty _ _ Hlat) as Hlat'.
  pose proof (ParseFloat_nonempty _ _ Hlon) as Hlon'.
  destruct Hr as [[H | H] | _ _ Hp | _ _ _ Hq].
  - rewrite H in Hlat'. discriminate.
  - rewrite H in Hlon'. discriminate.
  - unfold parses in Hp. rewrite Hlat in Hp. discriminate.
  - unfold parses in Hq. rewrite Hlon in Hq. discriminate.
Qed.

Lemma rejected_line (query : Values) (msg : string) :
  rejected query msg -> In msg error_lines.
Proof. intros [H | | ]; cbn; auto. Qed.

End Effects.

(** ** The replies of the handler *)

(** X1. Whenever [weatherHandler] returns, it has written exactly one body
    to the fresh writer: either the encoding of a result whose
    classification is [classify] of its temperature, with status 200 and the
    single header [Content-Type: application/json], or one of its four
    fixed lines, with status 400 or 500 and the headers of [http.Error]. *)
Theorem handler_replies_once {W : Type} (env : Env W) (query : Values)
    (s s' : state W) (w : Http.ResponseWriter) :
  weatherHandler env Http.fresh query s = (Returned w, s') ->
  (exists f t,
      w = Http.Encode (Http.Header_Set Http.fresh "Content-Type" "application/json")
            {| Forecast := f; Temperature' := t; Classification := classify t |} /\
      Http.status w = Some 200 /\
      Http.header w = {[ "Content-Type" := ["application/json"] ]} /\
      length (Http.wrote w) = 1%nat) \/
  (exists msg code,
      w = Http.Error Http.fresh msg code /\
      In msg error_lines /\ (code = 400 \/ code = 500) /\
      Http.status w = Some code /\
      Http.header w !! "Content-Type" = Some ["text/plain; charset=utf-8"] /\
      Http.wrote w = [Http.Line msg]).
Proof.
  intros Hrun.
  destruct (rejected_or_accepted query) as [[msg Hr] | (lat & lon & Hlat & Hlon)].
  { rewrite (weatherHandler_rejected env _ _ _ _ Hr) in Hrun.
    injection Hrun as <- _. right. exists msg, 400.
    split; [reflexivity |]. split; [exact (rejected_line query msg Hr) |].
    split; [now left |]. repeat split. }
  rewrite (weatherHandler_accepted env _ _ _ _ _ Hlat Hlon), getForecast_steps in Hrun.
  destruct (fetchForecast env lat lon s) as [[[fr | e] | q] s1].
  - destruct (selected (Now_Format env (world s1)) (Periods fr)) as [p |];
      [| discriminate].
    injection Hrun as <- _. left. exists (ShortForecast p), (Temperature p).
    repeat split.
  - injection Hrun as <- _. right. exists "Failed to fetch forecast", 500.
    split; [reflexivity |]. split; [cbn; auto |].
    split; [now right |]. repeat split.
  - discriminate.
Qed.

Lemma handler_replies_once_witness :
  (exists f t,
      Stub.stale_reply =
        Http.Encode (Http.Header_Set Http.fresh "Content-Type" "application/json")
            {| Forecast := f; Temperature' := t; Classification := classify t |} /\
      Http.status Stub.stale_reply = Some 200 /\
      Http.header Stub.stale_reply = {[ "Content-Type" := ["application/json"] ]} /\
      length (Http.wrote Stub.stale_reply) = 1%nat) \/
  (exists msg code,
      Stub.stale_reply = Http.Error Http.fresh msg code /\
      In msg error_lines /\ (code = 400 \/ code = 500) /\
      Http.status Stub.stale_reply = Some code /\
      Http.header Stub.stale_reply !! "Content-Type" = Some ["text/plain; charset=utf-8"] /\
      Http.wrote Stub.stale_reply = [Http.Line msg]).
Proof.
  apply (handler_replies_once Stub.stale Stub.query (start 0%nat)
           Stub.after_two_requests Stub.stale_reply).
  vm_compute; reflexivity.
Defined.

(** X2. The status tells the cause: when [weatherHandler] returns, the
    status is 400 exactly when the query is rejected, 500 exactly when both
    parameters parse and [getForecast] returns an error, and 200 exactly
    when both parse and [getForecast] returns without one. *)
Theorem status_tells_the_cause {W : Type} (env : Env W) (query : Values)
    (s s' : state W) (w : Http.ResponseWriter) :
  weatherHandler env Http.fresh query s = (Returned w, s') ->
  (Http.status w = Some 400 <-> exists msg, rejected query msg) /\
  (Http.status w = Some 500 <->
   exists lat lon e,
     Strconv.ParseFloat (Http.Get query "lat") = (lat, None) /\
     Strconv.ParseFloat (Http.Get query "lon") = (lon, None) /\
     returns_error env lat lon s e) /\
  (Http.status w = Some 200 <->
   exists lat lon r,
     Strconv.ParseFloat (Http.Get query "lat") = (lat, None) /\
     Strconv.ParseFloat (Http.Get query "lon") = (lon, None) /\
     getForecast env lat lon s = (Returned (r, None), s')).
Proof.
  intros Hrun.
  destruct (rejected_or_accepted query) as [[msg Hr] | (lat & lon & Hlat & Hlon)].
  { rewrite (weatherHandler_rejected env _ _ _ _ Hr) in Hrun.
    injection Hrun as <- _.
    split; [split; [eauto | reflexivity] |].
    split; (split; [discriminate |]); intros (la & lo & x & Hla & Hlo & _);
      destruct (rejected_not_accepted _ _ _ _ Hr Hla Hlo). }
  assert (Hno : forall msg, rejected query msg -> False)
    by (intros msg Hr; exact (rejected_not_accepted _ _ _ _ Hr Hlat Hlon)).
  rewrite (weatherHandler_accepted env _ _ _ _ _ Hlat Hlon) in Hrun.
  destruct (getForecast env lat lon s) as [[[[[f t] c] [e |]] | p] s1] eqn:Hg;
    [| | discriminate].
  - injection Hrun as <- Hs.
    split; [split; [discriminate | intros [msg Hr]; destruct (Hno msg Hr)] |].
    split.
    + split; [| reflexivity]. intros _. exists lat, lon, e.
      split; [exact Hlat | split; [exact Hlon |]]. now exists (f, t, c), s1.
    + split; [discriminate |]. intros (la & lo & r & Hla & Hlo & Hr).
      rewrite Hlat in Hla. rewrite Hlon in Hlo.
      injection Hla as <-. injection Hlo as <-. rewrite Hg in Hr. discriminate.
  - injection Hrun as <- <-.
    split; [split; [discriminate | intros [msg Hr]; destruct (Hno msg Hr)] |].
    split.
    + split; [discriminate |]. intros (la & lo & e & Hla & Hlo & (r & s2 & Hr)).
      rewrite Hlat in Hla. rewrite Hlon in Hlo.
      injection Hla as <-. injection Hlo as <-. rewrite Hg in Hr. discriminate.
    + split; [| reflexivity]. intros _. exists lat, lon, (f, t, c). auto.
Qed.

Lemma status_tells_the_cause_witness :
  (Http.status Stub.stale_reply = Some 400 <-> exists msg, rejected Stub.query msg) /\
  (Http.status Stub.stale_reply = Some 500 <->
   exists lat lon e,
     Strconv.ParseFloat (Http.Get Stub.query "lat") = (lat, None) /\
     Strconv.ParseFloat (Http.Get Stub.query "lon") = (lon, None) /\
     returns_error Stub.stale lat lon (start 0%nat) e) /\
  (Http.status Stub.stale_reply = Some 200 <->
   exists lat lon r,
     Strconv.ParseFloat (Http.Get Stub.query "lat") = (lat, None) /\
     Strconv.ParseFloat (Http.Get Stub.query "lon") = (lon, None) /\
     getForecast Stub.stale lat lon (start 0%nat) = (Returned (r, None), Stub.after_two_requests)).
Proof.
  apply (status_tells_the_cause Stub.stale Stub.query (start 0%nat)
           Stub.after_two_requests Stub.stale_reply).
  vm_compute; reflexivity.
Defined.

(** X3. The log grows by one entry when the handler answers 500, and that
    entry is the words [Error fetching forecast:] with the very error that
    [getForecast] has returned for the two parsed parameters; in every other
    run (a rejected query, a success, a panic) the log stays as it is. *)
Theorem log_grows_only_on_error {W : Type} (env : Env W) (query : Values)
    (s s' : state W) (o : outcome Http.ResponseWriter) :
  weatherHandler env Http.fresh query s = (o, s') ->
  (exists lat lon e,
      Strconv.ParseFloat (Http.Get query "lat") = (lat, None) /\
      Strconv.ParseFloat (Http.Get query "lon") = (lon, None) /\
      returns_error env lat lon s e /\
      o = Returned (Http.Error Http.fresh "Failed to fetch forecast" 500) /\
      logged s' = (logged s ++ [("Error fetching forecast:", e)])%list) \/
  (logged s' = logged s /\
   forall w, o = Returned w -> Http.status w <> Some 500).
Proof.
  intros Hrun.
  destruct (rejected_or_accepted query) as [[msg Hr] | (lat & lon & Hlat & Hlon)].
  { rewrite (weatherHandler_rejected env _ _ _ _ Hr) in Hrun.
    injection Hrun as <- <-. right. split; [reflexivity |].
    intros w [= <-]. discriminate. }
  rewrite (weatherHandler_accepted env _ _ _ _ _ Hlat Hlon) in Hrun.
  pose proof (getForecast_logged env lat lon s) as Hlog.
  destruct (getForecast env lat lon s) as [[[[[f t] c] [e |]] | p] s1] eqn:Hg;
    cbn [snd] in Hlog; injection Hrun as <- <-.
  - left. exists lat, lon, e.
    split; [exact Hlat |]. split; [exact Hlon |].
    split; [now exists (f, t, c), s1 |].
    split; [reflexivity |]. cbn [logged]. now rewrite Hlog.
  - right. split; [exact Hlog |]. intros w [= <-]. discriminate.
  - right. split; [exact Hlog |]. intros w [=].
Qed.

Lemma log_grows_only_on_error_witness :
  (exists lat lon e,
      Strconv.ParseFloat (Http.Get Stub.query "lat") = (lat, None) /\
      Strconv.ParseFloat (Http.Get Stub.query "lon") = (lon, None) /\
      returns_error Scenario.forecast_refused lat lon (start 0%nat) e /\
      Returned (Http.Error Http.fresh "Failed to fetch forecast" 500) =
        Returned (Http.Error Http.fresh "Failed to fetch forecast" 500) /\
      logged Scenario.after_refusal =
        (logged (start 0%nat) ++ [("Error fetching forecast:", e)])%list) \/
  (logged Scenario.after_refusal = logged (start 0%nat) /\
   forall w, Returned (Http.Error Http.fresh "Failed to fetch forecast" 500) = Returned w ->
             Http.status w <> Some 500).
Proof.
  apply (log_grows_only_on_error Scenario.forecast_refused Stub.query (start 0%nat)
           Scenario.after_refusal
           (Returned (Http.Error Http.fresh "Failed to fetch forecast" 500))).
  vm_compute; reflexivity.
Defined.

(** ** The resolver *)

(** X4. An error of [getForecast] comes with the zero values and nothing
    else: no forecast, temperature 0, no classification; and it comes
    before the clock is read and before a period is looked at, in the state
    the exchange with the upstream has left. *)
Theorem error_comes_with_zero_values {W : Type} (env : Env W) (lat lon : float64)
    (s s' : state W) (f : string) (t : Z) (c : string) (e : error) :
  getForecast env lat lon s = (Returned (f, t, c, Some e), s') ->
  f = "" /\ t = 0 /\ c = "" /\
  fetchForecast env lat lon s = (Returned (inr e), s').
Proof.
  intros Hrun. rewrite getForecast_steps in Hrun.
  destruct (fetchForecast env lat lon s) as [[[fr | e'] | p] s1].
  - destruct (selected _ _); discriminate.
  - injection Hrun as <- <- <- <- <-. repeat split.
  - discriminate.
Qed.

Lemma error_comes_with_zero_values_witness :
  "" = "" /\ 0 = 0 /\ "" = "" /\
  fetchForecast Stub.refused Stub.latitude Stub.longitude (start 0%nat) =
    (Returned (inr (DoError "dial tcp: connection refused")), Stub.after_one_request).
Proof.
  apply (error_comes_with_zero_values Stub.refused Stub.latitude Stub.longitude
           (start 0%nat) Stub.after_one_request "" 0 ""
           (DoError "dial tcp: connection refused")).
  vm_compute; reflexivity.
Defined.

(** X6. The handler panics in two ways only, both inside [getForecast]: on
    the [nil] request that [http.NewRequest] returns for a URL that
    [url.Parse] refuses (the points URL, with nothing sent yet, or the
    forecast URL taken from the points response, with the points request
    sent), and on the index into an empty sequence of periods. A rejected
    query and a failing upstream never make it panic. *)
Theorem panics_of_the_handler {W : Type} (env : Env W) (query : Values)
    (s s' : state W) (p : panic) :
  weatherHandler env Http.fresh query s = (Panicked p, s') ->
  exists lat lon,
    Strconv.ParseFloat (Http.Get query "lat") = (lat, None) /\
    Strconv.ParseFloat (Http.Get query "lon") = (lon, None) /\
    getForecast env lat lon s = (Panicked p, s') /\
    (p = NilDereference /\ url_Parse_ok env (pointsURL lat lon) = false /\ s' = s \/
     p = NilDereference /\
       (exists resp w1 pr,
           client_Do env (get_with_user_agent (pointsURL lat lon)) (world s) = (inl resp, w1) /\
           Json.Unmarshal_PointsResponse (Http.ReadAll resp) = (pr, None) /\
           url_Parse_ok env (Forecast_url pr) = false /\
           sent s' = (sent s ++ [get_with_user_agent (pointsURL lat lon)])%list) \/
     p = IndexOutOfRange 0 0 /\
       (exists fr,
           fetchForecast env lat lon s = (Returned (inl fr), s') /\ Periods fr = [])).
Proof.
  intros Hrun.
  destruct (rejected_or_accepted query) as [[msg Hr] | (lat & lon & Hlat & Hlon)].
  { rewrite (weatherHandler_rejected env _ _ _ _ Hr) in Hrun. discriminate. }
  exists lat, lon. split; [exact Hlat | split; [exact Hlon |]].
  rewrite (weatherHandler_accepted env _ _ _ _ _ Hlat Hlon) in Hrun.
  destruct (getForecast env lat lon s) as [[[[[f t] c] [e |]] | q] s1] eqn:Hg;
    try discriminate.
  injection Hrun as <- <-. split; [reflexivity |].
  rewrite getForecast_steps in Hg.
  destruct (fetchForecast env lat lon s) as [[[fr | e] | q'] s2] eqn:Hf.
  - destruct (selected (Now_Format env (world s2)) (Periods fr)) as [x |] eqn:Hsel;
      [discriminate |].
    injection Hg as <- <-. right; right. split; [reflexivity |]. exists fr.
    split; [reflexivity |].
    destruct (Periods fr) as [| y l] eqn:Hp; [reflexivity |].
    destruct (selected_nonempty (Now_Format env (world s2)) (y :: l)) as [z Hz];
      [discriminate | congruence].
  - discriminate.
  - injection Hg as <- <-.
    unfold fetchForecast, bind in Hf. rewrite request_built in Hf.
    destruct (url_Parse_ok env (pointsURL lat lon)) eqn:Hu.
    2: { injection Hf as <- <-. left. auto. }
    unfold Do at 1 in Hf.
    destruct (client_Do env (get_with_user_agent (pointsURL lat lon)) (world s))
      as [[resp | err] w1] eqn:Hdo; [| discriminate].
    destruct (Json.Unmarshal_PointsResponse (Http.ReadAll resp)) as [pr [e |]] eqn:Hpr;
      [discriminate |].
    rewrite request_built in Hf.
    destruct (url_Parse_ok env (Forecast_url pr)) eqn:Hu2.
    + unfold Do in Hf. cbn [world sent logged] in Hf.
      destruct (client_Do env (get_with_user_agent (Forecast_url pr)) w1)
        as [[resp2 | err2] w2]; [| discriminate].
      destruct (Json.Unmarshal_ForecastResponse (Http.ReadAll resp2)) as [fr [e |]];
        discriminate.
    + injection Hf as <- <-. right; left. split; [reflexivity |].
      exists resp, w1, pr. auto.
Qed.

Lemma panics_of_the_handler_witness :
  exists lat lon,
    Strconv.ParseFloat (Http.Get Stub.query "lat") = (lat, None) /\
    Strconv.ParseFloat (Http.Get Stub.query "lon") = (lon, None) /\
    getForecast Scenario.unparsable lat lon (start 0%nat) =
      (Panicked NilDereference, Scenario.after_points) /\
    (NilDereference = NilDereference /\
       url_Parse_ok Scenario.unparsable (pointsURL lat lon) = false /\
       Scenario.after_points = start 0%nat \/
     NilDereference = NilDereference /\
       (exists resp w1 pr,
           client_Do Scenario.unparsable (get_with_user_agent (pointsURL lat lon))
             (world (start 0%nat)) = (inl resp, w1) /\
           Json.Unmarshal_PointsResponse (Http.ReadAll resp) = (pr, None) /\
           url_Parse_ok Scenario.unparsable (Forecast_url pr) = false /\
           sent Scenario.after_points =
             (sent (start 0%nat) ++ [get_with_user_agent (pointsURL lat lon)])%list) \/
     NilDereference = IndexOutOfRange 0 0 /\
       (exists fr,
           fetchForecast Scenario.unparsable lat lon (start 0%nat) =
             (Returned (inl fr), Scenario.after_points) /\ Periods fr = [])).
Proof.
  apply (panics_of_the_handler Scenario.unparsable Stub.query (start 0%nat)
           Scenario.after_points NilDereference).
  vm_compute; reflexivity.
Defined.

(** ** The query *)

Lemma Get_insert_ne (query : Values) (k key : string) (vs : list string) :
  k <> key -> Http.Get (<[k := vs]> query) key = Http.Get query key.
Proof. intros Hne. unfold Http.Get. now rewrite lookup_insert_ne. Qed.

Lemma Get_insert_eq (query : Values) (key x : string) (l : list string) :
  Http.Get (<[key := x :: l]> query) key = x.
Proof. unfold Http.Get. now rewrite lookup_insert_eq. Qed.

Lemma Get_first (query : Values) (key x : string) (l : list string) :
  query !! key = Some (x :: l) -> Http.Get query key = x.
Proof. intros H. unfold Http.Get. now rewrite H. Qed.

(** the handler looks at the query through the two calls of [Get] *)
Lemma weatherHandler_Get {W : Type} (env : Env W) (w : Http.ResponseWriter)
    (query query' : Values) (s : state W) :
  Http.Get query' "lat" = Http.Get query "lat" ->
  Http.Get query' "lon" = Http.Get query "lon" ->
  weatherHandler env w query' s = weatherHandler env w query s.
Proof. intros Hlat Hlon. unfold weatherHandler. now rewrite Hlat, Hlon. Qed.

(** X7. The handler reads the first value of [lat] and the first value of
    [lon] and nothing else of the query: giving another parameter any
    values, and replacing the values that follow the first [lat] and the
    first [lon], changes neither the reply nor what the run does. *)
Theorem only_first_lat_and_lon_count {W : Type} (env : Env W) (w : Http.ResponseWriter)
    (query : Values) (k : string) (vs : list string)
    (lat lon : string) (lats lons lats' lons' : list string) (s : state W) :
  k <> "lat" -> k <> "lon" ->
  query !! "lat" = Some (lat :: lats) ->
  query !! "lon" = Some (lon :: lons) ->
  weatherHandler env w
    (<[k := vs]> (<["lat" := lat :: lats']> (<["lon" := lon :: lons']> query))) s =
  weatherHandler env w query s.
Proof.
  intros Hk1 Hk2 Hlat Hlon. apply weatherHandler_Get.
  - rewrite (Get_insert_ne _ _ _ _ Hk1), Get_insert_eq.
    symmetry. exact (Get_first _ _ _ _ Hlat).
  - rewrite (Get_insert_ne _ _ _ _ Hk2), Get_insert_ne by discriminate.
    rewrite Get_insert_eq. symmetry. exact (Get_first _ _ _ _ Hlon).
Qed.

(** [/weather?lat=38.8977&lat=abc&lon=-77.0365&units=si] is served like
    [/weather?lat=38.8977&lon=-77.0365] *)
Lemma only_first_lat_and_lon_count_witness :
  weatherHandler Stub.sunny Http.fresh
    (<["units" := ["si"]]> (<["lat" := [Stub.lat; "abc"]]> (<["lon" := [Stub.lon]]> Stub.query)))
    (start 0%nat) =
  weatherHandler Stub.sunny Http.fresh Stub.query (start 0%nat).
Proof.
  apply (only_first_lat_and_lon_count Stub.sunny Http.fresh Stub.query "units" ["si"]
           Stub.lat Stub.lon [] [] ["abc"] [] (start 0%nat)).
  - discriminate.
  - discriminate.
  - vm_compute; reflexivity.
  - vm_compute; reflexivity.
Defined.

(** ** The selection *)

Lemma first_today_Some (d : string) (periods : list Period) (p : Period) :
  first_today d periods = Some p ->
  todays_daytime d p = true /\
  exists before after,
    periods = (before ++ p :: after)%list /\
    Forall (fun q => todays_daytime d q = false) before.
Proof.
  induction periods as [| q rest IH]; simpl; [discriminate |].
  destruct (todays_daytime d q) eqn:Hq.
  - intros [= <-]. split; [exact Hq |]. exists [], rest. split; [reflexivity | constructor].
  - intros H. destruct (IH H) as (Hp & before & after & -> & Hb).
    split; [exact Hp |]. exists (q :: before), after.
    split; [reflexivity | now constructor].
Qed.

Lemma first_today_None (d : string) (periods : list Period) :
  first_today d periods = None ->
  Forall (fun q => todays_daytime d q = false) periods.
Proof.
  induction periods as [| q rest IH]; simpl; [constructor |].
  destruct (todays_daytime d q) eqn:Hq; [discriminate |].
  intros H. constructor; auto.
Qed.

(** X8. The period that lines 118-128 serve is a period of the sequence.
    It passes the test of line 121 and no period before it does, or no
    period of the sequence passes it and the period is the first one: the
    fallback is taken only when there is nothing to find, and a period
    after the first match never counts. *)
Theorem selected_is_first_match_or_head (d : string) (periods : list Period) (p : Period) :
  selected d periods = Some p ->
  In p periods /\
  (todays_daytime d p = true /\
   (exists before after,
       periods = (before ++ p :: after)%list /\
       Forall (fun q => todays_daytime d q = false) before) \/
   head periods = Some p /\
   Forall (fun q => todays_daytime d q = false) periods).
Proof.
  unfold selected. destruct (first_today d periods) as [q |] eqn:Hf.
  - intros [= <-]. destruct (first_today_Some _ _ _ Hf) as (Hq & before & after & -> & Hb).
    split; [apply in_or_app; right; now left |].
    left. split; [exact Hq |]. now exists before, after.
  - intros Hh. split.
    + destruct periods as [| x l]; [discriminate |]. injection Hh as <-. now left.
    + right. split; [exact Hh | now apply first_today_None].
Qed.

Lemma selected_is_first_match_or_head_witness :
  In Scenario.today_period Scenario.sunny_periods /\
  (todays_daytime Stub.today Scenario.today_period = true /\
   (exists before after,
       Scenario.sunny_periods = (before ++ Scenario.today_period :: after)%list /\
       Forall (fun q => todays_daytime Stub.today q = false) before) \/
   head Scenario.sunny_periods = Some Scenario.today_period /\
   Forall (fun q => todays_daytime Stub.today q = false) Scenario.sunny_periods).
Proof.
  apply (selected_is_first_match_or_head Stub.today Scenario.sunny_periods
           Scenario.today_period).
  vm_compute; reflexivity.
Defined.

(** ** Decoding the documents of the upstream *)

Ltac decide_names :=
  repeat match goal with
         | |- context [Json.names ?k ?t] =>
             let b := eval vm_compute in (Json.names k t) in
             change (Json.names k t) with b
         end.

Lemma into_int_int64 (target n : Z) :
  int64 n = true -> Json.into_int target (JInt n) = (n, None).
Proof. unfold int64, Json.into_int. now intros ->. Qed.

(** the object of a period, decoded into any period, gives the period *)
Lemma Period_json_decodes (target p : Period) :
  int64 (Temperature p) = true ->
  Json.into_struct Json.Period_field target (Period_json p) = (p, None).
Proof.
  intros Hi. destruct p as [n st t u sf d]. cbn [Temperature] in Hi.
  unfold Period_json, Json.into_struct. cbn [Json.into_fields Name StartTime Temperature
    TemperatureUnit ShortForecast IsDaytime].
  unfold Json.Period_field. decide_names. cbn [Json.into_string Json.into_bool
    Name StartTime Temperature TemperatureUnit ShortForecast IsDaytime Json.saveError].
  rewrite (into_int_int64 _ _ Hi). reflexivity.
Qed.

Lemma into_elements_decodes (periods : list Period) :
  Forall (fun p => int64 (Temperature p) = true) periods ->
  forall array,
    Json.into_elements array None (map Period_json periods) =
    (periods, skipn (length periods) array, None).
Proof.
  induction 1 as [| p rest Hp _ IH]; intros array; [reflexivity |].
  cbn [map Json.into_elements]. rewrite (Period_json_decodes _ _ Hp).
  cbn [Json.saveError]. rewrite IH.
  destruct array as [| a array]; cbn [tl length skipn]; [rewrite skipn_nil |];
    reflexivity.
Qed.

Lemma points_document_decodes (url : string) :
  Json.Unmarshal_PointsResponse (points_document url) = ({| Forecast_url := url |}, None).
Proof.
  unfold points_document, Json.Unmarshal_PointsResponse, Json.into_struct.
  cbn [Json.into_fields]. unfold Json.PointsResponse_field. decide_names.
  unfold Json.into_struct. cbn [Json.into_fields].
  unfold Json.Properties_of_points_field. decide_names. reflexivity.
Qed.

(** the forecast document is the array of its periods, given to [into_slice] *)
Lemma forecast_document_into_slice (periods : list Period) :
  Json.Unmarshal_ForecastResponse (forecast_document periods) =
  (let '(sl, e) := Json.into_slice Json.nil_slice (JArray (map Period_json periods)) in
   ({| Periods := Json.elems sl |}, e)).
Proof.
  unfold forecast_document, Json.Unmarshal_ForecastResponse, Json.into_struct.
  cbn [Json.into_fields]. unfold Json.ForecastResponse_field. decide_names.
  unfold Json.into_struct. cbn [Json.into_fields].
  unfold Json.Properties_of_forecast_field. decide_names.
  destruct (Json.into_slice Json.nil_slice (JArray (map Period_json periods))) as [sl e].
  reflexivity.
Qed.

Lemma forecast_document_decodes (periods : list Period) :
  Forall (fun p => int64 (Temperature p) = true) periods ->
  Json.Unmarshal_ForecastResponse (forecast_document periods) = ({| Periods := periods |}, None).
Proof.
  intros Hall. rewrite forecast_document_into_slice.
  destruct periods as [| p rest]; [reflexivity |].
  unfold Json.into_slice. cbn [map].
  change (Period_json p :: map Period_json rest) with (map Period_json (p :: rest)).
  rewrite (into_elements_decodes _ Hall). reflexivity.
Qed.

Lemma Period_json_overflows (target q : Period) :
  int64 (Temperature q) = false ->
  snd (Json.into_struct Json.Period_field target (Period_json q)) <> None.
Proof.
  intros Hbad. destruct q as [n st t u sf d]. cbn [Temperature] in Hbad.
  unfold Period_json, Json.into_struct.
  cbn [Json.into_fields Name StartTime Temperature
       TemperatureUnit ShortForecast IsDaytime].
  unfold Json.Period_field. decide_names.
  cbn [Json.into_string Json.into_bool Json.saveError
       Name StartTime Temperature TemperatureUnit ShortForecast IsDaytime].
  unfold Json.into_int. unfold int64 in Hbad. rewrite Hbad. discriminate.
Qed.

Lemma into_elements_overflows (periods : list Period) :
  forall array saved,
    saved <> None \/ Exists (fun p => int64 (Temperature p) = false) periods ->
    snd (Json.into_elements array saved (map Period_json periods)) <> None.
Proof.
  induction periods as [| q l IH]; intros array saved Hor; cbn [map Json.into_elements].
  - destruct Hor as [Hs | He]; [exact Hs | inversion He].
  - pose proof (Period_json_overflows (hd Json.zero_Period array) q) as Hq.
    destruct (Json.into_struct Json.Period_field (hd Json.zero_Period array) (Period_json q))
      as [x e].
    specialize (IH (tl array) (Json.saveError saved e)).
    destruct (Json.into_elements (tl array) (Json.saveError saved e) (map Period_json l))
      as [[ps' sp] sv].
    apply IH. destruct Hor as [Hs | He].
    + left. destruct saved; [discriminate | contradiction].
    + inversion He as [? ? Hbad | ? ? Hlater]; subst; [left | now right].
      destruct saved; [discriminate |]. exact (Hq Hbad).
Qed.

(** X9. Decoding undoes encoding. The points document that holds a URL
    decodes to that URL. The forecast document of a sequence of periods
    whose temperatures fit a 64-bit [int] decodes, without an error, to the
    same periods in the same order; when a temperature does not fit,
    [Unmarshal] returns an error. *)
Theorem documents_decode :
  (forall url,
      Json.Unmarshal_PointsResponse (points_document url) =
        ({| Forecast_url := url |}, None)) /\
  (forall periods,
      Forall (fun p => int64 (Temperature p) = true) periods ->
      Json.Unmarshal_ForecastResponse (forecast_document periods) =
        ({| Periods := periods |}, None)) /\
  (forall periods,
      Exists (fun p => int64 (Temperature p) = false) periods ->
      snd (Json.Unmarshal_ForecastResponse (forecast_document periods)) <> None).
Proof.
  split; [exact points_document_decodes |].
  split; [exact forecast_document_decodes |].
  intros periods Hex. rewrite forecast_document_into_slice.
  destruct periods as [| p rest]; [inversion Hex |].
  unfold Json.into_slice. cbn [map Json.elems Json.spare Json.nil_slice app].
  pose proof (into_elements_overflows (p :: rest) [] None (or_intror Hex)) as H.
  cbn [map] in H.
  destruct (Json.into_elements [] None (Period_json p :: map Period_json rest))
    as [[ps' sp] sv]. exact H.
Qed.

(** ** From the request to the reply *)

Section EndToEnd.

Context {W : Type}.
Variable env : Env W.

(** the exchange with an upstream that answers both requests with documents *)
Lemma fetchForecast_documents (lat lon : float64) (s : state W)
    (resp resp2 : Http.Response) (w1 w2 : W) (url : string) (periods : list Period) :
  url_Parse_ok env (pointsURL lat lon) = true ->
  client_Do env (get_with_user_agent (pointsURL lat lon)) (world s) = (inl resp, w1) ->
  Http.ReadAll resp = points_document url ->
  url_Parse_ok env url = true ->
  client_Do env (get_with_user_agent url) w1 = (inl resp2, w2) ->
  Http.ReadAll resp2 = forecast_document periods ->
  Forall (fun p => int64 (Temperature p) = true) periods ->
  fetchForecast env lat lon s =
    (Returned (inl {| Periods := periods |}),
     {| world := w2;
        sent := (sent s ++ [get_with_user_agent (pointsURL lat lon)]) ++
                [get_with_user_agent url];
        logged := logged s |}).
Proof.
  intros Hu Hdo Hb Hu2 Hdo2 Hb2 Hall.
  unfold fetchForecast, bind. rewrite request_built, Hu. unfold Do at 1.
  rewrite Hdo, Hb, points_document_decodes. cbn [Forecast_url].
  rewrite request_built, Hu2. unfold Do. cbn [world sent logged].
  rewrite Hdo2, Hb2, (forecast_document_decodes _ Hall). reflexivity.
Qed.

(** a failed points exchange: one request, and the error *)
Lemma fetchForecast_points_failure (lat lon : float64) (s : state W)
    (r : Http.Response + string) (w1 : W) :
  url_Parse_ok env (pointsURL lat lon) = true ->
  client_Do env (get_with_user_agent (pointsURL lat lon)) (world s) = (r, w1) ->
  forall e,
    match r with
    | inr msg => e = DoError msg
    | inl resp => exists pr je,
        Json.Unmarshal_PointsResponse (Http.ReadAll resp) = (pr, Some je) /\ e = JsonError je
    end ->
    fetchForecast env lat lon s =
      (Returned (inr e),
       {| world := w1; sent := sent s ++ [get_with_user_agent (pointsURL lat lon)];
          logged := logged s |}).
Proof.
  intros Hu Hdo e He.
  unfold fetchForecast, bind. rewrite request_built, Hu. unfold Do at 1. rewrite Hdo.
  destruct r as [resp | msg].
  - destruct He as (pr & je & Hpr & ->). rewrite Hpr. reflexivity.
  - subst e. reflexivity.
Qed.

End EndToEnd.

(** X10. From the request to the reply. When both parameters parse, the
    upstream answers the points lookup with a document that holds a
    forecast URL, whatever the status code, and answers the request for
    that URL with the document of a non-empty sequence of periods, the
    handler sends exactly these two requests, in this order, the second one
    in the world the first one has left, logs nothing, and answers 200 with
    the data of the selected period. *)
Theorem served_from_the_documents {W : Type} (env : Env W) (query : Values)
    (lat lon : float64) (s : state W)
    (resp resp2 : Http.Response) (w1 w2 : W) (url : string) (periods : list Period) :
  Strconv.ParseFloat (Http.Get query "lat") = (lat, None) ->
  Strconv.ParseFloat (Http.Get query "lon") = (lon, None) ->
  url_Parse_ok env (pointsURL lat lon) = true ->
  client_Do env (get_with_user_agent (pointsURL lat lon)) (world s) = (inl resp, w1) ->
  Http.ReadAll resp = points_document url ->
  url_Parse_ok env url = true ->
  client_Do env (get_with_user_agent url) w1 = (inl resp2, w2) ->
  Http.ReadAll resp2 = forecast_document periods ->
  Forall (fun p => int64 (Temperature p) = true) periods ->
  periods <> [] ->
  exists p,
    selected (Now_Format env w2) periods = Some p /\
    weatherHandler env Http.fresh query s =
      (Returned (reply_of p),
       {| world := w2;
          sent := (sent s ++ [get_with_user_agent (pointsURL lat lon)]) ++
                  [get_with_user_agent url];
          logged := logged s |}).
Proof.
  intros Hlat Hlon Hu Hdo Hb Hu2 Hdo2 Hb2 Hall Hne.
  destruct (selected_nonempty (Now_Format env w2) periods Hne) as [p Hp].
  exists p. split; [exact Hp |].
  rewrite (weatherHandler_accepted env _ _ _ _ _ Hlat Hlon), getForecast_steps.
  rewrite (fetchForecast_documents env _ _ _ _ _ _ _ _ _ Hu Hdo Hb Hu2 Hdo2 Hb2 Hall).
  cbn [world Periods]. rewrite Hp. reflexivity.
Qed.

Lemma served_from_the_documents_witness :
  exists p,
    selected (Now_Format Stub.sunny 2%nat) Scenario.sunny_periods = Some p /\
    weatherHandler Stub.sunny Http.fresh Stub.query (start 0%nat) =
      (Returned (reply_of p),
       {| world := 2%nat;
          sent := (sent (start 0%nat) ++
                   [get_with_user_agent (pointsURL Stub.latitude Stub.longitude)]) ++
                  [get_with_user_agent Stub.forecast_url];
          logged := logged (start 0%nat) |}).
Proof.
  apply (served_from_the_documents Stub.sunny Stub.query Stub.latitude Stub.longitude
           (start 0%nat)
           {| Http.StatusCode := 200; Http.ReadAll := Stub.points_body;
              Http.ReadAll_err := false |}
           {| Http.StatusCode := 200;
              Http.ReadAll := Stub.forecast_body
                                [Stub.tonight_json; Stub.today_json; Stub.tomorrow_json];
              Http.ReadAll_err := false |}
           1%nat 2%nat Stub.forecast_url Scenario.sunny_periods).
  - vm_compute; reflexivity.
  - vm_compute; reflexivity.
  - vm_compute; reflexivity.
  - vm_compute; reflexivity.
  - reflexivity.
  - vm_compute; reflexivity.
  - vm_compute; reflexivity.
  - reflexivity.
  - repeat constructor.
  - discriminate.
Defined.

(** X11. A failed points exchange ends the run after one request: when [Do]
    refuses the points request, or [Unmarshal] refuses the body of its
    response, [getForecast] returns that error in the world the one request
    has left; the forecast request is not sent and nothing is tried again. *)
Theorem points_failure_ends_the_run {W : Type} (env : Env W) (lat lon : float64)
    (s : state W) (r : Http.Response + string) (w1 : W) (e : error) :
  url_Parse_ok env (pointsURL lat lon) = true ->
  client_Do env (get_with_user_agent (pointsURL lat lon)) (world s) = (r, w1) ->
  match r with
  | inr msg => e = DoError msg
  | inl resp => exists pr je,
      Json.Unmarshal_PointsResponse (Http.ReadAll resp) = (pr, Some je) /\ e = JsonError je
  end ->
  getForecast env lat lon s =
    (Returned ("", 0, "", Some e),
     {| world := w1; sent := sent s ++ [get_with_user_agent (pointsURL lat lon)];
        logged := logged s |}).
Proof.
  intros Hu Hdo He.
  rewrite getForecast_steps, (fetchForecast_points_failure env _ _ _ _ _ Hu Hdo e He).
  reflexivity.
Qed.

Lemma points_failure_ends_the_run_witness :
  getForecast Stub.refused Stub.latitude Stub.longitude (start 0%nat) =
    (Returned ("", 0, "", Some (DoError "dial tcp: connection refused")),
     {| world := 1%nat;
        sent := sent (start 0%nat) ++
                [get_with_user_agent (pointsURL Stub.latitude Stub.longitude)];
        logged := logged (start 0%nat) |}).
Proof.
  apply (points_failure_ends_the_run Stub.refused Stub.latitude Stub.longitude
           (start 0%nat) (inr "dial tcp: connection refused") 1%nat
           (DoError "dial tcp: connection refused")).
  - vm_compute; reflexivity.
  - vm_compute; reflexivity.
  - reflexivity.
Defined.

(** ** From the parameter to the URL *)














